(** * lmao: language-model client and chat history

    A shallow embedding of [lmao/lm/clients/base.py] and
    [lmao/lm/clients/anthropic.py], and the properties of the chat-history
    buffer, of the header construction, of the response normalisation and of
    [complete] that hold, or fail, on that code.

    Conventions of the embedding:
    - a Python object is a [pyvalue]; a [dict] with string keys is a
      [gmap string pyvalue];
    - a Python exception is an [exn], a call that may raise returns a
      [result];
    - a method that mutates [self], or that talks to the network, is a
      function in the state-and-exception monad [SE]: the state after a
      raise is the state at the point of the raise. *)

From Stdlib Require Import ZArith QArith Ascii String.
From stdpp Require Import base option list strings gmap fin_maps.

(** ** Python values *)

#[warnings="-register-all"] Inductive pyvalue : Type :=
  | PyNone
  | PyBool (b : bool)
  | PyInt (n : Z)
  | PyFloat (q : Q)
  | PyStr (s : string)
  | PyList (l : list pyvalue)
  | PyDict (d : gmap string pyvalue).

(** [type(v)] as [f"{type(v)}"] prints it. *)
Definition type_repr (v : pyvalue) : string :=
  match v with
  | PyNone => "<class 'NoneType'>"
  | PyBool _ => "<class 'bool'>"
  | PyInt _ => "<class 'int'>"
  | PyFloat _ => "<class 'float'>"
  | PyStr _ => "<class 'str'>"
  | PyList _ => "<class 'list'>"
  | PyDict _ => "<class 'dict'>"
  end.

(** ** Exceptions and results *)

Inductive exn : Type :=
  | ValueError (msg : string)
  | KeyError (key : string)
  | TypeError
  | AttributeError
  | External (name : string).
      (* raised by a collaborator: the HTTP library, the request schema *)

Inductive result (A : Type) : Type :=
  | Ok (a : A)
  | Raise (e : exn).
Arguments Ok {A} a.
Arguments Raise {A} e.

#[global] Instance result_ret : MRet result := λ A a, Ok a.
#[global] Instance result_bind : MBind result := λ A B f r,
  match r with
  | Ok a => f a
  | Raise e => Raise e
  end.

(** State and exceptions: what a method does to the object it is called on
    (or to the network), and what it returns or raises. *)
Definition SE (S A : Type) : Type := S → result A * S.

#[global] Instance SE_ret S : MRet (SE S) := λ A a s, (Ok a, s).
#[global] Instance SE_bind S : MBind (SE S) := λ A B f m s,
  match m s with
  | (Ok a, s') => f a s'
  | (Raise e, s') => (Raise e, s')
  end.

Definition lift {S A} (r : result A) : SE S A := λ s, (r, s).
Definition get_state {S} : SE S S := λ s, (Ok s, s).

(** [obj[key]] for a string key. *)
Definition getitem (obj : pyvalue) (key : string) : result pyvalue :=
  match obj with
  | PyDict d =>
      match d !! key with
      | Some v => Ok v
      | None => Raise (KeyError key)
      end
  | _ => Raise TypeError
  end.

(** ** [str.title]

    CPython walks the string with a flag [previous_is_cased]: a character
    that follows a cased character is lower-cased, any other is
    title-cased; the flag becomes whether the character just read is
    cased.  On ASCII text the cased characters are the letters, and
    [title] below is that walk.  What is cased outside ASCII, and what its
    title and lower case are, is in the Unicode tables of the interpreter:
    on text that is not ASCII, [str_title] is the interpreter's function,
    taken as it is. *)

Definition is_upper (c : ascii) : bool :=
  (65 <=? nat_of_ascii c)%nat && (nat_of_ascii c <=? 90)%nat.
Definition is_lower (c : ascii) : bool :=
  (97 <=? nat_of_ascii c)%nat && (nat_of_ascii c <=? 122)%nat.
Definition is_cased (c : ascii) : bool := is_upper c || is_lower c.
Definition to_upper (c : ascii) : ascii :=
  if is_lower c then ascii_of_nat (nat_of_ascii c - 32) else c.
Definition to_lower (c : ascii) : ascii :=
  if is_upper c then ascii_of_nat (nat_of_ascii c + 32) else c.

Fixpoint title_from (previous_is_cased : bool) (s : string) : string :=
  match s with
  | EmptyString => EmptyString
  | String c rest =>
      String (if previous_is_cased then to_lower c else to_upper c)
             (title_from (is_cased c) rest)
  end.

(** [s.title()] for ASCII text [s]. *)
Definition title (s : string) : string := title_from false s.

(** Text of ASCII characters only. *)
Definition ascii_text (s : string) : bool :=
  forallb (λ c, nat_of_ascii c <? 128) (list_ascii_of_string s).

(** [s.title()] for any text, given the interpreter's [str.title] on text
    that is not ASCII. *)
Definition str_title (unicode_title : string → string) (s : string)
  : string :=
  if ascii_text s then title s else unicode_title s.

(** [role.title()] for the values of [pyvalue]: of these only [str] has
    the method.  (Objects that are no [pyvalue], such as [bytes], may have
    one.) *)
Definition title_method (unicode_title : string → string) (v : pyvalue)
  : result string :=
  match v with
  | PyStr s => Ok (str_title unicode_title s)
  | _ => Raise AttributeError
  end.

Definition newline : string := String "010"%char EmptyString.

(** ** ChatHistory (base.py) *)

(** What [self._messages] holds: the [deque(maxlen=...)] that [__init__]
    creates, or the plain [list] that the [messages] setter stores. *)
Inductive buffer : Type :=
  | Deque (maxlen : Z) (items : list pyvalue)
  | ListBuffer (items : list pyvalue).

Definition buffer_items (b : buffer) : list pyvalue :=
  match b with
  | Deque _ items => items
  | ListBuffer items => items
  end.

(** [deque.append] puts the item on the right and, when the deque is then
    longer than [maxlen], pops the leftmost; [list.append] only grows. *)
Definition buffer_append (b : buffer) (x : pyvalue) : buffer :=
  match b with
  | Deque maxlen items =>
      let items' := items ++ [x] in
      if (maxlen <? Z.of_nat (length items'))%Z
      then Deque maxlen (tail items')
      else Deque maxlen items'
  | ListBuffer items => ListBuffer (items ++ [x])
  end.

Definition buffer_clear (b : buffer) : buffer :=
  match b with
  | Deque maxlen _ => Deque maxlen []
  | ListBuffer _ => ListBuffer []
  end.

Record ChatHistory : Type := {
  max_length : Z;
  _messages : buffer
}.

Definition human_role : string := "human".
Definition assistant_role : string := "assistant".

(** The abstract static method of the class; [to_request_format], the
    other abstract method, is defined per variant below. *)
Class MessageFormat : Type := {
  check_message_format : pyvalue → result pyvalue
}.

Module ChatHistory.
Section methods.
Context `{MessageFormat}.

(** [__init__]: [deque(maxlen=n)] raises for a negative [n].  (For an [n]
    that does not fit a machine word it raises [OverflowError], which is
    left out: [max_length] is an unbounded integer here.) *)
Definition init (max_length : Z) : result ChatHistory :=
  if (max_length <? 0)%Z
  then Raise (ValueError "maxlen must be non-negative")
  else Ok {| max_length := max_length; _messages := Deque max_length [] |}.

Definition set_buffer (b : buffer) : SE ChatHistory unit :=
  λ self, (Ok tt, {| max_length := max_length self; _messages := b |}).

Definition append (role content : pyvalue) : SE ChatHistory unit :=
  message ← lift (check_message_format
                    (PyDict (<["content" := content]> {["role" := role]})));
  self ← get_state;
  set_buffer (buffer_append (_messages self) message).

Definition add_assistant_message (message : pyvalue) : SE ChatHistory unit :=
  append (PyStr assistant_role) message.

Definition add_human_message (message : pyvalue) : SE ChatHistory unit :=
  append (PyStr human_role) message.

Definition clear : SE ChatHistory unit :=
  self ← get_state;
  set_buffer (buffer_clear (_messages self)).

(** The [messages] property. *)
Definition messages (self : ChatHistory) : list pyvalue :=
  buffer_items (_messages self).

(** [[self.check_message_format(m) for m in messages]] *)
Fixpoint check_all (messages : list pyvalue) : result (list pyvalue) :=
  match messages with
  | [] => Ok []
  | m :: rest =>
      m' ← check_message_format m;
      rest' ← check_all rest;
      Ok (m' :: rest')
  end.

(** The [messages] setter: the comprehension is evaluated, then the list
    it built is stored in place of the deque. *)
Definition set_messages (messages : list pyvalue) : SE ChatHistory unit :=
  checked ← lift (check_all messages);
  set_buffer (ListBuffer checked).

(** [__len__] *)
Definition len (self : ChatHistory) : nat :=
  length (buffer_items (_messages self)).

(** The public operations, and a session that performs them one after
    the other on the same object; an operation that raises leaves the
    object as it was at the raise, and the session goes on. *)
Inductive op : Type :=
  | Append (role content : pyvalue)
  | AddHumanMessage (message : pyvalue)
  | AddAssistantMessage (message : pyvalue)
  | Clear
  | SetMessages (messages : list pyvalue).

Definition run_op (o : op) : SE ChatHistory unit :=
  match o with
  | Append role content => append role content
  | AddHumanMessage m => add_human_message m
  | AddAssistantMessage m => add_assistant_message m
  | Clear => clear
  | SetMessages ms => set_messages ms
  end.

Definition run_ops (ops : list op) (self : ChatHistory) : ChatHistory :=
  foldl (λ h o, (run_op o h).2) self ops.

End methods.
End ChatHistory.

(** ** AnthropicChatHistory (anthropic.py) *)

Module AnthropicChatHistory.

Definition check_message_format (message : pyvalue) : result pyvalue :=
  match message with
  | PyDict d =>
      match d !! "role" with
      | None => Raise (ValueError "Message must have a 'role' key.")
      | Some _ =>
          match d !! "content" with
          | None => Raise (ValueError "Message must have a 'content' key.")
          | Some _ => Ok message
          end
      end
  | _ =>
      Raise (ValueError
               ("Message must be a dict, not " +:+ type_repr message +:+ "."))
  end.

#[global] Instance format : MessageFormat :=
  Build_MessageFormat check_message_format.

(** The override of [append] repeats the body of the base method. *)
Definition append (role content : pyvalue) : SE ChatHistory unit :=
  message ← lift (check_message_format
                    (PyDict (<["content" := content]> {["role" := role]})));
  self ← get_state;
  ChatHistory.set_buffer (buffer_append (_messages self) message).

Section to_prompt.
(** [str(v)] for a value that is not a [str], as the interpreter prints it:
    what an f-string puts in place of [{v}]. *)
Variable py_str : pyvalue → string.
(** [s.title()] for text [s] that is not ASCII, as the interpreter computes
    it. *)
Variable unicode_title : string → string.

Definition format_value (v : pyvalue) : string :=
  match v with
  | PyStr s => s
  | _ => py_str v
  end.

(** [f"{message['role'].title()}: {message['content']}"] *)
Definition format_message (message : pyvalue) : result string :=
  role ← getitem message "role";
  label ← title_method unicode_title role;
  content ← getitem message "content";
  Ok (label +:+ ": " +:+ format_value content).

Definition to_prompt (self : ChatHistory) (end_with_assistant_prompt : bool)
  : result string :=
  parts ← mapM format_message (buffer_items (_messages self));
  let chat := String.concat (newline +:+ newline) parts in
  Ok (if end_with_assistant_prompt
      then chat +:+ newline +:+ newline +:+ "Assistant:"
      else chat).

Definition to_request_format (self : ChatHistory) : result string :=
  to_prompt self true.

End to_prompt.
End AnthropicChatHistory.

(** ** The client (base.py) *)

Record APIHeader : Type := {
  key : string;
  value : string → string
}.

Definition SUCCESS_STATUS_CODE : Z := 200.

Definition API_HEADER_FORMAT_DICT : gmap string APIHeader :=
  <["bearer authentication" :=
      {| key := "Authorization"; value := λ api_key, "Bearer " +:+ api_key |}]>
  (<["basic authentication" :=
      {| key := "Authorization"; value := λ api_key, "Basic " +:+ api_key |}]>
  {["x-api-key" := {| key := "X-API-Key"; value := λ api_key, api_key |}]}).

Record ClientResponse : Type := {
  text : pyvalue;
  raw_response : pyvalue;
  status_code : Z
}.

(** The class attributes a client subclass sets. *)
Record ClientClass : Type := {
  base_url : string;
  api_env_name : string;
  api_header_format : string;
  RETRY_BACKOFF_FACTOR : Q;
  RETRY_STATUS_CODES : list Z
}.

(** The attributes of [BaseClient] itself. *)
Definition BaseClient_class : ClientClass := {|
  base_url := "none";
  api_env_name := "none";
  api_header_format := "none";
  RETRY_BACKOFF_FACTOR := 1 # 10;
  RETRY_STATUS_CODES := [429; 500; 502; 503; 504]%Z
|}.

Record BaseClient : Type := {
  class : ClientClass;
  max_retries : Z;
  __api_key : string;
  _api_header : APIHeader
}.

(** [x or y] for two optional strings: [None] and the empty string are
    falsy. *)
Definition or_else (x y : option string) : option string :=
  match x with
  | Some s => if decide (s = EmptyString) then y else x
  | None => y
  end.

(** [BaseClient.__init__], for the subclass [cls] and the process
    environment [environ]. *)
Definition BaseClient_init (cls : ClientClass) (environ : gmap string string)
    (api_key : option string) (max_retries : Z) : result BaseClient :=
  match or_else api_key (environ !! api_env_name cls) with
  | None =>
      Raise (ValueError
        "You must provide an API key or set api_env_name to initialize an LM Client.")
  | Some the_key =>
      if decide (base_url cls = "none")
      then Raise (ValueError
             "Client subclasses must define a base URL attribute.")
      else
        match API_HEADER_FORMAT_DICT !! api_header_format cls with
        | None =>
            Raise (ValueError
              "Client subclasses must have api_header_format in ['x-api-key', 'basic authentication', 'bearer authentication']")
        | Some header =>
            Ok {| class := cls; max_retries := max_retries;
                  __api_key := the_key; _api_header := header |}
        end
  end.

(** *** The HTTP library, as far as the client uses it *)

Record Retry : Type := {
  total : Z;
  backoff_factor : Q;
  status_forcelist : list Z
}.

Record HTTPAdapter : Type := { adapter_max_retries : Retry }.

(** A session is the adapters mounted on it, newest first. *)
Record Session : Type := { adapters : list (string * HTTPAdapter) }.

Definition Session_new : Session := {| adapters := [] |}.

Definition mount (prefix : string) (adapter : HTTPAdapter) (s : Session)
  : Session := {| adapters := (prefix, adapter) :: adapters s |}.

Record Request : Type := {
  url : string;
  json : pyvalue;
  headers : gmap string string
}.

(** A response: its status, and what [response.json()] returns, [None]
    when it raises [JSONDecodeError]. *)
Record Response : Type := {
  response_status_code : Z;
  response_json : option pyvalue
}.

(** What happens on the network during a call. *)
Inductive event : Type :=
  | Sent (r : Request)
  | Slept (seconds : Q).

Definition is_sent (e : event) : bool :=
  match e with Sent _ => true | Slept _ => false end.

Definition attempts (trace : list event) : nat :=
  length (filter is_sent trace).

Definition waits (trace : list event) : list Q :=
  omap (λ e, match e with Slept q => Some q | Sent _ => None end) trace.

(** The endpoint: its answer to a request, given how many requests it has
    received before; [Raise] is a failure of the connection. *)
Definition endpoint : Type := nat → Request → result Response.

Definition IO (A : Type) : Type := SE (list event) A.

Section client.
Variable server : endpoint.

(** The module-level [requests.post]: it opens a session of its own, whose
    adapters retry nothing.  The call is modelled as one exchange with the
    endpoint; the redirects that the library follows, and the requests
    that it refuses to send (a malformed URL or header), are not part of
    the model. *)
Definition requests_post (r : Request) : IO Response :=
  λ trace, (server (attempts trace) r, trace ++ [Sent r]).

(** [value in d.values()] *)
Definition in_values (v : string) (d : gmap string string) : bool :=
  bool_decide (v ∈ (map_to_list d).*2).

(** Lines 125-132 of [_post_request]: the headers of the request. *)
Definition request_headers (self : BaseClient)
    (extra_headers : option (gmap string string)) : gmap string string :=
  let headers :=
    <[key (_api_header self) := value (_api_header self) (__api_key self)]>
      (<["content-type" := "application/json"]>
        {["accept" := "application/json"]}) in
  let headers := default ∅ extra_headers ∪ headers in
  if negb (in_values (__api_key self) headers)
  then <["Authorization" := "Bearer " +:+ __api_key self]> headers
  else headers.

Definition _post_request (self : BaseClient) (api_path : string)
    (request : pyvalue) (extra_headers : option (gmap string string))
  : IO (Z * pyvalue) :=
  let retries :=
    {| total := max_retries self;
       backoff_factor := RETRY_BACKOFF_FACTOR (class self);
       status_forcelist := RETRY_STATUS_CODES (class self) |} in
  let session :=
    mount "http://" {| adapter_max_retries := retries |}
      (mount "https://" {| adapter_max_retries := retries |} Session_new) in
  let headers := request_headers self extra_headers in
  (* the [with] block ends here; nothing was sent through [session] *)
  response ← requests_post
    {| url := base_url (class self) +:+ "/" +:+ api_path;
       json := request;
       headers := headers |};
  let status_code := response_status_code response in
  match response_json response with
  | Some response_dict => mret (status_code, response_dict)
  | None =>
      mret (if negb (status_code =? SUCCESS_STATUS_CODE)%Z
            then 500%Z else status_code,
            PyDict ∅)
  end.

End client.

(** ** AnthropicClient (anthropic.py) *)

Module AnthropicClient.

Definition class : ClientClass := {|
  base_url := "https://api.anthropic.com";
  api_env_name := "ANTHROPIC_API_KEY";
  api_header_format := "x-api-key";
  RETRY_BACKOFF_FACTOR := RETRY_BACKOFF_FACTOR BaseClient_class;
  RETRY_STATUS_CODES := RETRY_STATUS_CODES BaseClient_class
|}.

(** [__init__] passes the key on and leaves [max_retries] at its default. *)
Definition init (environ : gmap string string) (api_key : option string)
  : result BaseClient :=
  BaseClient_init class environ api_key 5.

Section complete.
Variable server : endpoint.
(** [AnthropicCompleteSchema(prompt=prompt, **kwargs).to_request_dict()]:
    the schema module is not part of the client; it builds the body of the
    request or raises on options it does not accept. *)
Variable to_request_dict : string → gmap string pyvalue → result pyvalue.

Definition complete (self : BaseClient) (prompt : string)
    (kwargs : gmap string pyvalue) : IO ClientResponse :=
  request ← lift (to_request_dict prompt kwargs);
  '(status_code, response) ← _post_request server self "v1/complete" request None;
  text ← (if (status_code =? SUCCESS_STATUS_CODE)%Z
          then lift (getitem response "completion")
          else mret PyNone);
  mret {| text := text; raw_response := response; status_code := status_code |}.

End complete.
End AnthropicClient.

(** ** Sample data *)

Definition message (role content : string) : pyvalue :=
  PyDict (<["content" := PyStr content]> {["role" := PyStr role]}).

(** The mapping that [append] builds from its two arguments. *)
Definition built (role content : pyvalue) : pyvalue :=
  PyDict (<["content" := content]> {["role" := role]}).

(** An endpoint that gives the same answer to every request. *)
Definition answers (status : Z) (body : option pyvalue) : endpoint :=
  λ _ _, Ok {| response_status_code := status; response_json := body |}.

(** A request schema that sends the prompt and the options as they are. *)
Definition plain_schema (prompt : string) (kwargs : gmap string pyvalue)
  : result pyvalue :=
  Ok (PyDict (<["prompt" := PyStr prompt]> kwargs)).

(** A client class as a test would declare it. *)
Definition test_class (scheme : string) : ClientClass := {|
  base_url := "https://x.test";
  api_env_name := "X_API_KEY";
  api_header_format := scheme;
  RETRY_BACKOFF_FACTOR := RETRY_BACKOFF_FACTOR BaseClient_class;
  RETRY_STATUS_CODES := RETRY_STATUS_CODES BaseClient_class
|}.

Definition test_client (scheme : string) (header : APIHeader) : BaseClient := {|
  class := test_class scheme;
  max_retries := 5;
  __api_key := "k1";
  _api_header := header
|}.

(** A stand-in for the interpreter's [str()] on values that are not
    strings, for evaluating [to_prompt] on histories of strings. *)
Definition sample_str (v : pyvalue) : string := type_repr v.

(** A stand-in for the interpreter's [str.title] on text that is not
    ASCII, for evaluating [to_prompt] on histories with ASCII roles. *)
Definition sample_title (s : string) : string := s.

(** ** The words of the specification

    Definitions that follow the specification's wording, to be compared
    with what the code computes. *)

(** "content and role must both be present and non-null" *)
Definition spec_present_and_non_null (m : pyvalue) : Prop :=
  ∃ d r c, m = PyDict d ∧ d !! "role" = Some r ∧ d !! "content" = Some c
           ∧ r ≠ PyNone ∧ c ≠ PyNone.

(** "role capitalized": the first character in upper case, the rest as it
    is. *)
Definition spec_capitalize (s : string) : string :=
  match s with
  | EmptyString => EmptyString
  | String c rest => String (to_upper c) rest
  end.

(** "join messages as {Role}: {content} pairs separated by a blank line,
    append a trailing Assistant: cue", for turns given as (role, content)
    and a way [label] of writing the role. *)
Definition spec_prompt (label : string → string)
    (turns : list (string * string)) (end_with_assistant_prompt : bool)
  : string :=
  let chat := String.concat (newline +:+ newline)
                ((λ t, label t.1 +:+ ": " +:+ t.2) <$> turns) in
  if end_with_assistant_prompt
  then chat +:+ newline +:+ newline +:+ "Assistant:"
  else chat.

(** "no key is resolvable (explicit key is null and the named environment
    variable is unset), baseUrl is unset, or authScheme is not a recognized
    scheme" *)
Definition spec_construction_fails (cls : ClientClass)
    (environ : gmap string string) (api_key : option string) : Prop :=
  (api_key = None ∧ environ !! api_env_name cls = None)
  ∨ base_url cls = "none"
  ∨ api_header_format cls ∉
      ["x-api-key"; "basic authentication"; "bearer authentication"].

(** ** Predicates of the statements *)

(** A mapping with both keys, whatever their values. *)
Definition has_role_and_content (m : pyvalue) : Prop :=
  ∃ d, m = PyDict d ∧ is_Some (d !! "role") ∧ is_Some (d !! "content").

(** The message [m] is a mapping whose role and content are the two
    strings of the turn [t]. *)
Definition holds_turn (m : pyvalue) (t : string * string) : Prop :=
  ∃ d, m = PyDict d ∧ d !! "role" = Some (PyStr t.1)
       ∧ d !! "content" = Some (PyStr t.2).

(** A word of lower-case ASCII letters only. *)
Fixpoint lowercase_word (s : string) : bool :=
  match s with
  | EmptyString => true
  | String c rest => is_lower c && lowercase_word rest
  end.

(** The capacity invariant of a history that still holds the deque of its
    constructor. *)
Definition bounded_deque (h : ChatHistory) : Prop :=
  ∃ items, _messages h = Deque (max_length h) items
           ∧ (Z.of_nat (length items) ≤ max_length h)%Z.

Definition is_set_messages (o : ChatHistory.op) : bool :=
  match o with ChatHistory.SetMessages _ => true | _ => false end.

(** The condition under which the constructor raises: as in the
    specification, with the empty string counted as no key. *)
Definition construction_fails (cls : ClientClass)
    (environ : gmap string string) (api_key : option string) : Prop :=
  ((api_key = None ∨ api_key = Some EmptyString)
   ∧ environ !! api_env_name cls = None)
  ∨ base_url cls = "none"
  ∨ api_header_format cls ∉
      ["x-api-key"; "basic authentication"; "bearer authentication"].

(** The three headers of the dict literal, before [extra_headers] are
    merged in. *)
Definition required_headers (self : BaseClient) : gmap string string :=
  <[key (_api_header self) := value (_api_header self) (__api_key self)]>
    (<["content-type" := "application/json"]>
      {["accept" := "application/json"]}).

(** The request that [_post_request] sends. *)
Definition sent_request (self : BaseClient) (api_path : string)
    (request : pyvalue) (extra_headers : option (gmap string string))
  : Request :=
  {| url := base_url (class self) +:+ "/" +:+ api_path;
     json := request;
     headers := request_headers self extra_headers |}.

(** ** The printed forms (base.py)

    [__repr__] of [ChatHistory] and of [ClientResponse]. *)

(** [re.sub(r"^", " " * 4, s, 0, re.M)]: in multi-line mode [^] matches at
    the start of the text and right after every newline; the four spaces
    are put at each of these places. *)
Fixpoint indent_after_newlines (s : string) : string :=
  match s with
  | EmptyString => EmptyString
  | String c rest =>
      if Ascii.eqb c "010"%char
      then String c ("    " +:+ indent_after_newlines rest)
      else String c (indent_after_newlines rest)
  end.

Definition indent (s : string) : string := "    " +:+ indent_after_newlines s.

Section repr.
(** [str(v)] for a value that is not a [str], as in [to_prompt]. *)
Variable py_str : pyvalue → string.

(** [ChatHistory.__repr__], for the name of the class of [self]. *)
Definition ChatHistory_repr (class_name : string) (self : ChatHistory)
  : string :=
  let repr := String.concat newline
                (AnthropicChatHistory.format_value py_str
                   <$> buffer_items (_messages self)) in
  let repr := if (0 <? length (buffer_items (_messages self)))%nat
              then newline +:+ indent repr +:+ newline
              else EmptyString in
  class_name +:+ "([" +:+ repr +:+ "])".

(** [ClientResponse.__repr__]: the fields in the order of the dataclass. *)
Definition ClientResponse_repr (self : ClientResponse) : string :=
  let repr := String.concat newline
    [ "text: " +:+ AnthropicChatHistory.format_value py_str (text self);
      "raw_response: "
        +:+ AnthropicChatHistory.format_value py_str (raw_response self);
      "status_code: "
        +:+ AnthropicChatHistory.format_value py_str (PyInt (status_code self)) ] in
  let repr := indent repr in
  "ClientResponse" +:+ "({" +:+ newline +:+ repr +:+ newline +:+ "})".

End repr.

(** ** Conversations *)

(** Who speaks in a turn added with [add_human_message] or
    [add_assistant_message]. *)
Inductive speaker : Type := Human | Assistant.

Definition speaker_role (who : speaker) : string :=
  match who with Human => human_role | Assistant => assistant_role end.

Definition speaker_label (who : speaker) : string :=
  match who with Human => "Human" | Assistant => "Assistant" end.

(** The call that adds the turn [t]. *)
Definition say (t : speaker * string) : ChatHistory.op :=
  match t.1 with
  | Human => ChatHistory.AddHumanMessage (PyStr t.2)
  | Assistant => ChatHistory.AddAssistantMessage (PyStr t.2)
  end.

(** The calls [append(role, content)] for a list of (role, content). *)
Definition appends (turns : list (pyvalue * pyvalue)) : list ChatHistory.op :=
  (λ t, ChatHistory.Append t.1 t.2) <$> turns.

(** The last [n] elements of a list. *)
Definition most_recent {A} (n : Z) (l : list A) : list A :=
  drop (length l - Z.to_nat n) l.



(** What each operation of a session returns or raises, in order. *)
Fixpoint outcomes `{MessageFormat} (ops : list ChatHistory.op)
    (self : ChatHistory) : list (result unit) :=
  match ops with
  | [] => []
  | o :: ops =>
      (ChatHistory.run_op o self).1
      :: outcomes ops (ChatHistory.run_op o self).2
  end.

(** Text without a newline. *)
Fixpoint no_newline (s : string) : bool :=
  match s with
  | EmptyString => true
  | String c rest => negb (Ascii.eqb c "010"%char) && no_newline rest
  end.

(** The concatenation of a list of strings. *)
Definition concat_strings (l : list string) : string :=
  foldr String.append EmptyString l.

(** * Properties *)

(** ** The bounded buffer *)

Section buffer_facts.
Context `{MessageFormat}.

Lemma buffer_append_length (n : Z) (items : list pyvalue) (x : pyvalue) :
  (Z.of_nat (length items) ≤ n)%Z →
  ∃ items', buffer_append (Deque n items) x = Deque n items'
            ∧ (Z.of_nat (length items') ≤ n)%Z.
Proof.
  intros Hlen. unfold buffer_append.
  destruct (Z.ltb_spec n (Z.of_nat (length (items ++ [x])))) as [Hfull | Hroom].
  - eexists. split; [reflexivity|].
    rewrite length_app in Hfull. simpl in Hfull.
    destruct items as [|y items]; simpl in *; [lia|].
    rewrite length_app. simpl. lia.
  - eexists. split; [reflexivity | lia].
Qed.

Lemma set_buffer_bounded (h : ChatHistory) (items : list pyvalue) :
  (Z.of_nat (length items) ≤ max_length h)%Z →
  bounded_deque (ChatHistory.set_buffer (Deque (max_length h) items) h).2.
Proof. intros Hlen. exists items. simpl. done. Qed.

Lemma append_bounded (role content : pyvalue) (h : ChatHistory) :
  bounded_deque h → bounded_deque (ChatHistory.append role content h).2.
Proof.
  intros (items & Hbuf & Hlen). unfold ChatHistory.append, mbind, SE_bind, lift.
  destruct (check_message_format _) as [m|e]; simpl; [|by exists items].
  rewrite Hbuf. destruct (buffer_append_length _ _ m Hlen) as (items' & -> & Hlen').
  by apply set_buffer_bounded.
Qed.

Lemma clear_bounded (h : ChatHistory) :
  bounded_deque h → bounded_deque (ChatHistory.clear h).2.
Proof.
  intros (items & Hbuf & Hlen). unfold ChatHistory.clear, mbind, SE_bind. simpl.
  rewrite Hbuf. simpl. apply set_buffer_bounded. simpl. lia.
Qed.

Lemma run_op_bounded (o : ChatHistory.op) (h : ChatHistory) :
  is_set_messages o = false →
  bounded_deque h → bounded_deque (ChatHistory.run_op o h).2.
Proof.
  destruct o; simpl; intros Hop Hb; try discriminate.
  - by apply append_bounded.
  - by apply append_bounded.
  - by apply append_bounded.
  - by apply clear_bounded.
Qed.

(** As long as the [messages] setter is not used, a history keeps the deque
    of its constructor, and with it the bound. *)
Lemma run_ops_bounded (ops : list ChatHistory.op) (h : ChatHistory) :
  forallb (λ o, negb (is_set_messages o)) ops = true →
  bounded_deque h → bounded_deque (ChatHistory.run_ops ops h).
Proof.
  revert h. induction ops as [|o ops IH]; intros h Hops Hb; [done|].
  simpl in Hops. apply andb_prop in Hops as [Ho Hops].
  apply negb_true_iff in Ho. simpl. apply IH; [done|].
  by apply run_op_bounded.
Qed.

Lemma init_bounded (n : Z) (h : ChatHistory) :
  ChatHistory.init n = Ok h →
  bounded_deque h ∧ max_length h = n ∧ ChatHistory.messages h = [].
Proof.
  unfold ChatHistory.init. destruct (Z.ltb_spec n 0); [done|].
  intros [= <-]. split; [|done]. exists []. simpl. split; [done | lia].
Qed.

Lemma bounded_len (h : ChatHistory) :
  bounded_deque h → (Z.of_nat (ChatHistory.len h) ≤ max_length h)%Z.
Proof. intros (items & Hbuf & Hlen). unfold ChatHistory.len. by rewrite Hbuf. Qed.

(** X6: from its construction on, a history on which the [messages]
    setter is not used never holds more than [max_length] messages,
    whatever the other operations and whether they raise or not. *)
Lemma length_bounded_without_setter (n : Z) (h : ChatHistory)
    (ops : list ChatHistory.op) :
  ChatHistory.init n = Ok h →
  forallb (λ o, negb (is_set_messages o)) ops = true →
  (Z.of_nat (ChatHistory.len (ChatHistory.run_ops ops h)) ≤ n)%Z.
Proof.
  intros Hinit Hops. destruct (init_bounded _ _ Hinit) as (Hb & Hmax & _).
  pose proof (run_ops_bounded ops h Hops Hb) as Hb'.
  apply bounded_len in Hb'.
  assert (max_length (ChatHistory.run_ops ops h) = max_length h) as Hsame.
  { clear. revert h. induction ops as [|o ops IH]; intros h; [done|].
    simpl. rewrite IH. clear IH.
    destruct o; simpl;
      unfold ChatHistory.add_human_message, ChatHistory.add_assistant_message,
        ChatHistory.append, ChatHistory.clear, ChatHistory.set_messages,
        mbind, SE_bind, lift;
      repeat (match goal with |- context [match ?r with _ => _ end] =>
                destruct r end; simpl); done. }
  lia.
Qed.

End buffer_facts.

(** ** Message format *)

Section history_facts.
Import AnthropicChatHistory.

Lemma check_message_format_cases (m : pyvalue) :
  (has_role_and_content m ∧ check_message_format m = Ok m)
  ∨ (¬ has_role_and_content m
     ∧ ∃ msg, check_message_format m = Raise (ValueError msg)).
Proof.
  destruct m; try (right; split; [intros (d' & Hd & _); discriminate | eexists; reflexivity]).
  simpl. destruct (d !! "role") as [r|] eqn:Hr.
  - destruct (d !! "content") as [c|] eqn:Hc.
    + left. split; [|reflexivity]. exists d. rewrite Hr, Hc. eauto.
    + right. split; [|eexists; reflexivity].
      intros (d' & Hd & _ & [c Hc']). by simplify_eq.
  - right. split; [|eexists; reflexivity].
    intros (d' & Hd & [r Hr'] & _). by simplify_eq.
Qed.

(** C7 (as amended): [check_message_format] accepts a value, and returns it
    unchanged, exactly when it is a mapping with a [role] key and a
    [content] key; it raises a [ValueError] on every other value (a value
    that is not a mapping, a mapping without [role], a mapping without
    [content]).  The values under the two keys are not examined. *)
Theorem check_message_format_accepts_iff (m : pyvalue) :
  (has_role_and_content m → check_message_format m = Ok m)
  ∧ (¬ has_role_and_content m →
     ∃ msg, check_message_format m = Raise (ValueError msg))
  ∧ (∀ m', check_message_format m = Ok m' → m' = m ∧ has_role_and_content m).
Proof.
  destruct (check_message_format_cases m) as [[Hw Hok] | [Hnw [msg Hr]]].
  - split; [done|]. split; [done|]. intros m' Hm'. split; [congruence | done].
  - split; [done|]. split; [eauto|]. intros m' Hm'. congruence.
Qed.

(** The override is the base method at the Anthropic checker. *)
Lemma append_override (role content : pyvalue) :
  AnthropicChatHistory.append role content = ChatHistory.append role content.
Proof. reflexivity. Qed.

(** [append] of the Anthropic variant never raises: the mapping it builds
    has both keys. *)
Lemma append_accepts (role content : pyvalue) (h : ChatHistory) :
  ChatHistory.append role content h =
  (Ok tt, {| max_length := max_length h;
             _messages := buffer_append (_messages h) (built role content) |}).
Proof. reflexivity. Qed.

(** A full buffer loses its oldest message to the new one. *)
Lemma append_to_full_evicts_oldest (role content oldest : pyvalue)
    (rest : list pyvalue) (h : ChatHistory) :
  _messages h = Deque (max_length h) (oldest :: rest) →
  Z.of_nat (length (oldest :: rest)) = max_length h →
  ChatHistory.messages (ChatHistory.append role content h).2
  = rest ++ [built role content].
Proof.
  intros Hbuf Hfull. rewrite append_accepts. unfold ChatHistory.messages. simpl.
  rewrite Hbuf. unfold buffer_append.
  destruct (Z.ltb_spec (max_length h)
              (Z.of_nat (length ((oldest :: rest) ++ [built role content]))))
    as [_ | Hroom]; [done|].
  rewrite length_app in Hroom. simpl in *. lia.
Qed.

Lemma appends_below_capacity (turns : list (pyvalue * pyvalue))
    (h : ChatHistory) :
  bounded_deque h →
  (Z.of_nat (ChatHistory.len h + length turns) ≤ max_length h)%Z →
  ChatHistory.messages
    (ChatHistory.run_ops ((λ t, ChatHistory.Append t.1 t.2) <$> turns) h)
  = ChatHistory.messages h ++ ((λ t, built t.1 t.2) <$> turns).
Proof.
  revert h. induction turns as [|[role content] turns IH]; intros h Hb Hroom.
  { simpl. by rewrite app_nil_r. }
  destruct Hb as (items & Hbuf & Hlen).
  assert (ChatHistory.len h = length items) as Hl
    by (unfold ChatHistory.len; by rewrite Hbuf).
  rewrite Hl in Hroom. simpl in Hroom.
  assert ((ChatHistory.append role content h).2
          = {| max_length := max_length h;
               _messages := Deque (max_length h) (items ++ [built role content]) |})
    as Hstep.
  { rewrite append_accepts. simpl. rewrite Hbuf. unfold buffer_append.
    destruct (Z.ltb_spec (max_length h)
                (Z.of_nat (length (items ++ [built role content]))))
      as [Hfull | _]; [|done].
    rewrite length_app in Hfull. simpl in Hfull. lia. }
  simpl. rewrite Hstep. rewrite IH.
  - unfold ChatHistory.messages. simpl. rewrite Hbuf. simpl.
    by rewrite <- app_assoc.
  - exists (items ++ [built role content]). simpl. split; [done|].
    rewrite length_app. simpl. lia.
  - unfold ChatHistory.len. simpl. rewrite length_app. simpl. lia.
Qed.

(** At most [max_length] appends to a new history: all of them are kept,
    in order. *)
Lemma appends_to_new_history (n : Z) (h : ChatHistory)
    (turns : list (pyvalue * pyvalue)) :
  ChatHistory.init n = Ok h →
  (Z.of_nat (length turns) ≤ n)%Z →
  ChatHistory.len
    (ChatHistory.run_ops ((λ t, ChatHistory.Append t.1 t.2) <$> turns) h)
  = length turns.
Proof.
  intros Hinit Hn. destruct (init_bounded _ _ Hinit) as (Hb & Hmax & Hnil).
  unfold ChatHistory.len. fold (ChatHistory.messages
    (ChatHistory.run_ops ((λ t, ChatHistory.Append t.1 t.2) <$> turns) h)).
  rewrite appends_below_capacity; [| done |].
  - rewrite Hnil. simpl. by rewrite length_fmap.
  - unfold ChatHistory.len. fold (ChatHistory.messages h). rewrite Hnil.
    simpl. lia.
Qed.

(** C2: the [messages] setter stores a plain list in place of the deque.
    A history of capacity 1 that is assigned two valid messages has length
    2, keeps [max_length = 1], and a later append evicts nothing. *)
Theorem messages_setter_drops_the_bound :
  let a := message "human" "a" in
  let b := message "assistant" "b" in
  ∃ h0, ChatHistory.init 1 = Ok h0
    ∧ let h1 := ChatHistory.run_ops [ChatHistory.SetMessages [a; b]] h0 in
      ChatHistory.messages h1 = [a; b]
      ∧ ChatHistory.len h1 = 2
      ∧ max_length h1 = 1%Z
      ∧ ChatHistory.messages
          (ChatHistory.run_ops [ChatHistory.AddHumanMessage (PyStr "c")] h1)
        = [a; b; message "human" "c"].
Proof.
  eexists. split; [reflexivity|].
  split; [vm_compute; reflexivity|]. split; [reflexivity|].
  split; [reflexivity|]. vm_compute; reflexivity.
Qed.

(** ** The [messages] setter *)

Lemma check_all_raises (messages : list pyvalue) :
  (∃ m, m ∈ messages ∧ ∀ m', check_message_format m ≠ Ok m') →
  ∃ msg, ChatHistory.check_all messages = Raise (ValueError msg).
Proof.
  induction messages as [|m0 messages IH]; intros (m & Hin & Hbad).
  { by apply elem_of_nil in Hin. }
  simpl. unfold mbind, result_bind.
  destruct (check_message_format_cases m0) as [[_ Hok] | [_ [msg Hr]]].
  - rewrite Hok. apply elem_of_cons in Hin as [-> | Hin].
    + by destruct (Hbad m0).
    + destruct IH as [msg ->]; eauto.
  - rewrite Hr. eauto.
Qed.

(** C6: if any element of the assigned list fails [check_message_format],
    the assignment raises a [ValueError] and the history is what it was. *)
Theorem messages_setter_atomic (self : ChatHistory) (messages : list pyvalue) :
  (∃ m, m ∈ messages ∧ ∀ m', check_message_format m ≠ Ok m') →
  ∃ msg, ChatHistory.set_messages messages self = (Raise (ValueError msg), self).
Proof.
  intros Hbad. destruct (check_all_raises messages Hbad) as [msg Hr].
  exists msg. unfold ChatHistory.set_messages, mbind, SE_bind, lift.
  fold ChatHistory.check_all. change (@ChatHistory.check_all format messages)
    with (ChatHistory.check_all messages).
  by rewrite Hr.
Qed.

(** Assigning [[valid, invalid]] to a history that holds one message. *)
Lemma messages_setter_atomic_witness :
  let prior := {| max_length := 10;
                  _messages := Deque 10 [message "human" "old"] |} in
  ∃ msg, ChatHistory.set_messages [message "human" "hi"; PyDict ∅] prior
         = (Raise (ValueError msg), prior).
Proof.
  apply (messages_setter_atomic _ [message "human" "hi"; PyDict ∅]).
  exists (PyDict ∅). split.
  - apply elem_of_cons. right. apply elem_of_cons. by left.
  - intros m'. simpl. discriminate.
Defined.

Lemma check_message_format_accepts_iff_witness :
  check_message_format (message "human" "hi") = Ok (message "human" "hi")
  ∧ (∃ msg, check_message_format (PyDict ∅) = Raise (ValueError msg))
  ∧ (∃ msg, check_message_format (PyDict {["role" := PyStr "x"]})
            = Raise (ValueError msg))
  ∧ (∃ msg, check_message_format (PyDict {["content" := PyStr "y"]})
            = Raise (ValueError msg))
  ∧ (∃ msg, check_message_format (PyStr "hi") = Raise (ValueError msg)).
Proof.
  split.
  { apply (proj1 (check_message_format_accepts_iff (message "human" "hi"))).
    eexists. split; [reflexivity|]. split; eexists; reflexivity. }
  split.
  { apply (proj1 (proj2 (check_message_format_accepts_iff (PyDict ∅)))).
    intros (d & Hd & [r Hr] & _). injection Hd as <-. discriminate. }
  split.
  { apply (proj1 (proj2 (check_message_format_accepts_iff
                           (PyDict {["role" := PyStr "x"]})))).
    intros (d & Hd & _ & [c Hc]). injection Hd as <-. discriminate. }
  split.
  { apply (proj1 (proj2 (check_message_format_accepts_iff
                           (PyDict {["content" := PyStr "y"]})))).
    intros (d & Hd & [r Hr] & _). injection Hd as <-. discriminate. }
  apply (proj1 (proj2 (check_message_format_accepts_iff (PyStr "hi")))).
  intros (d & Hd & _). discriminate.
Defined.

(** C7 (as stated) fails on null values: [append(None, None)] passes the
    check and the mapping with two null fields is buffered. *)
Lemma check_message_format_accepts_null_fields :
  let nulls := built PyNone PyNone in
  check_message_format nulls = Ok nulls
  ∧ ChatHistory.append PyNone PyNone {| max_length := 10; _messages := Deque 10 [] |}
    = (Ok tt, {| max_length := 10; _messages := Deque 10 [nulls] |})
  ∧ ¬ spec_present_and_non_null nulls.
Proof.
  split; [reflexivity|]. split; [reflexivity|].
  intros (d & r & c & Hd & Hr & Hc & Hrn & Hcn).
  injection Hd as <-. vm_compute in Hr. congruence.
Qed.

End history_facts.

(** ** Serialising a history to a prompt *)

Section prompt_facts.
Import AnthropicChatHistory.
Variable py_str : pyvalue → string.
Variable unicode_title : string → string.

Lemma format_message_turn (m : pyvalue) (t : string * string) :
  holds_turn m t →
  format_message py_str unicode_title m
  = Ok (str_title unicode_title t.1 +:+ ": " +:+ t.2).
Proof.
  intros (d & -> & Hr & Hc). unfold format_message, mbind, result_bind. simpl.
  by rewrite Hr, Hc.
Qed.

Lemma format_messages_turns (ms : list pyvalue) (turns : list (string * string)) :
  Forall2 holds_turn ms turns →
  mapM (format_message py_str unicode_title) ms
  = Ok ((λ t, str_title unicode_title t.1 +:+ ": " +:+ t.2) <$> turns).
Proof.
  intros Hall. induction Hall as [|m t ms turns Hm Hall IH]; [done|].
  simpl. rewrite (format_message_turn _ _ Hm). simpl. by rewrite IH.
Qed.

(** C8 (as amended): for a history whose messages hold string roles and
    contents, [to_prompt] joins ["{label}: {content}"], in insertion order
    and separated by a blank line, where the label is the role title-cased
    as [role.title()] does it (on ASCII text: every letter that does not
    follow a letter is upper-cased and every letter that follows a letter
    is lower-cased); with [end_with_assistant_prompt] a blank line and
    ["Assistant:"] are appended.  [to_request_format] is [to_prompt] with
    that flag set. *)
Theorem to_prompt_title_cases_roles (self : ChatHistory)
    (turns : list (string * string)) (end_with_assistant_prompt : bool) :
  Forall2 holds_turn (ChatHistory.messages self) turns →
  to_prompt py_str unicode_title self end_with_assistant_prompt
  = Ok (spec_prompt (str_title unicode_title) turns end_with_assistant_prompt)
  ∧ to_request_format py_str unicode_title self
    = Ok (spec_prompt (str_title unicode_title) turns true).
Proof.
  intros Hturns. unfold to_request_format, to_prompt.
  unfold ChatHistory.messages in Hturns.
  by rewrite (format_messages_turns _ _ Hturns).
Qed.

(** On ASCII text the title case is the walk over the letters. *)
Lemma str_title_ascii (s : string) :
  ascii_text s = true → str_title unicode_title s = title s.
Proof. intros Hs. unfold str_title. by rewrite Hs. Qed.

End prompt_facts.

Lemma is_lower_not_upper (c : ascii) : is_lower c = true → is_upper c = false.
Proof.
  unfold is_lower, is_upper. intros [H1 H2]%andb_prop.
  apply Nat.leb_le in H1. apply andb_false_iff. right. apply Nat.leb_gt. lia.
Qed.

Lemma title_from_cased_lowercase (s : string) :
  lowercase_word s = true → title_from true s = s.
Proof.
  induction s as [|c s IH]; [done|]. simpl. intros [Hc Hs]%andb_prop.
  unfold to_lower, is_cased. rewrite (is_lower_not_upper _ Hc), Hc. simpl.
  by rewrite IH.
Qed.

(** On a word of lower-case letters, such as the two default roles,
    [title] is plain capitalisation. *)
Lemma title_lowercase_word (s : string) :
  lowercase_word s = true → title s = spec_capitalize s.
Proof.
  destruct s as [|c s]; [done|]. simpl. intros [Hc Hs]%andb_prop.
  unfold title. simpl. unfold is_cased. rewrite Hc, orb_true_r.
  by rewrite title_from_cased_lowercase.
Qed.

(** The history of two turns: both turns in order, labels [Human] and
    [Assistant], and the cue at the end. *)
Lemma to_prompt_title_cases_roles_witness :
  let h := {| max_length := 10;
              _messages := Deque 10 [message "human" "hi";
                                     message "assistant" "hello"] |} in
  AnthropicChatHistory.to_request_format sample_str sample_title h
  = Ok ("Human: hi" +:+ newline +:+ newline +:+ "Assistant: hello"
        +:+ newline +:+ newline +:+ "Assistant:").
Proof.
  apply (to_prompt_title_cases_roles sample_str sample_title _
           [("human", "hi"); ("assistant", "hello")] true).
  repeat constructor; eexists; (split; [reflexivity|]); split; reflexivity.
Defined.

(** C8 (as stated) fails on the role [gpt4o]: the code labels the turn
    [Gpt4O], capitalisation gives [Gpt4o]. *)
Lemma to_prompt_title_cases_after_digit :
  let h := {| max_length := 10;
              _messages := Deque 10 [message "gpt4o" "hi"] |} in
  AnthropicChatHistory.to_prompt sample_str sample_title h true
  = Ok ("Gpt4O: hi" +:+ newline +:+ newline +:+ "Assistant:")
  ∧ spec_prompt spec_capitalize [("gpt4o", "hi")] true
    = "Gpt4o: hi" +:+ newline +:+ newline +:+ "Assistant:"
  ∧ AnthropicChatHistory.to_prompt sample_str sample_title h true
    ≠ Ok (spec_prompt spec_capitalize [("gpt4o", "hi")] true).
Proof. split; [reflexivity|]. split; [reflexivity|]. vm_compute. discriminate. Qed.

(** ** Construction of a client *)

Lemma scheme_lookup_None (scheme : string) :
  API_HEADER_FORMAT_DICT !! scheme = None
  ↔ scheme ∉ ["x-api-key"; "basic authentication"; "bearer authentication"].
Proof.
  unfold API_HEADER_FORMAT_DICT.
  rewrite !lookup_insert_None, lookup_singleton_None.
  rewrite !not_elem_of_cons. split.
  - intros ((H1 & H2) & H3). repeat split; try congruence. apply not_elem_of_nil.
  - intros (H1 & H2 & H3 & _). repeat split; congruence.
Qed.

Lemma or_else_None (x y : option string) :
  or_else x y = None ↔ (x = None ∨ x = Some EmptyString) ∧ y = None.
Proof.
  unfold or_else. destruct x as [s|].
  - destruct (decide (s = EmptyString)) as [-> | Hs].
    + split; [intros ->; auto | by intros [_ ->]].
    + split; [done|]. intros [[? | [= ->]] _]; done.
  - split; [intros ->; auto | by intros [_ ->]].
Qed.

(** C9 (as amended): the constructor raises a [ValueError] exactly when the
    explicit key is null or empty and the environment variable is unset,
    or the base URL is the placeholder ["none"], or the scheme is not one
    of the three of the registry; otherwise it returns a client of the
    class. *)
Theorem construction_fails_iff (cls : ClientClass)
    (environ : gmap string string) (api_key : option string)
    (max_retries : Z) :
  (construction_fails cls environ api_key
   ↔ ∃ msg, BaseClient_init cls environ api_key max_retries
            = Raise (ValueError msg))
  ∧ (¬ construction_fails cls environ api_key
     ↔ ∃ self, BaseClient_init cls environ api_key max_retries = Ok self).
Proof.
  unfold construction_fails, BaseClient_init.
  rewrite <- or_else_None, <- scheme_lookup_None.
  destruct (or_else api_key (environ !! api_env_name cls)) as [k|].
  2: { split; split; eauto; try tauto. intros [? [=]]. }
  destruct (decide (base_url cls = "none")) as [Hurl | Hurl].
  { split; split; eauto; try tauto. intros [? [=]]. }
  destruct (API_HEADER_FORMAT_DICT !! api_header_format cls) as [h|].
  2: { split; split; eauto; try tauto. intros [? [=]]. }
  split; split.
  - intros [[=] | [? | [=]]]; done.
  - intros [? [=]].
  - eauto.
  - intros _ [[=] | [? | [=]]]; done.
Qed.

(** What a successful construction stores. *)
Lemma construction_result (cls : ClientClass) (environ : gmap string string)
    (api_key : option string) (n : Z) (self : BaseClient) :
  BaseClient_init cls environ api_key n = Ok self →
  class self = cls ∧ max_retries self = n
  ∧ or_else api_key (environ !! api_env_name cls) = Some (__api_key self)
  ∧ API_HEADER_FORMAT_DICT !! api_header_format cls = Some (_api_header self).
Proof.
  unfold BaseClient_init.
  destruct (or_else _ _) as [k|]; [|done].
  destruct (decide _); [done|].
  destruct (API_HEADER_FORMAT_DICT !! _) as [h|]; [|done].
  by intros [= <-].
Qed.

Lemma construction_fails_iff_witness :
  (∃ msg, BaseClient_init (test_class "x-api-key") ∅ None 5
          = Raise (ValueError msg))
  ∧ (∃ msg, BaseClient_init (test_class "digest") ∅ (Some "k1") 5
            = Raise (ValueError msg))
  ∧ (∃ msg, BaseClient_init BaseClient_class ∅ (Some "k1") 5
            = Raise (ValueError msg))
  ∧ (∃ self, BaseClient_init (test_class "x-api-key") ∅ (Some "k1") 5 = Ok self)
  ∧ (∃ self, BaseClient_init (test_class "x-api-key") {["X_API_KEY" := "k2"]}
               None 5 = Ok self).
Proof.
  split.
  { apply (proj1 (proj1 (construction_fails_iff (test_class "x-api-key") ∅ None 5))).
    left. split; [by left | reflexivity]. }
  split.
  { apply (proj1 (proj1 (construction_fails_iff (test_class "digest") ∅
                           (Some "k1") 5))).
    right. right. simpl. rewrite !not_elem_of_cons.
    repeat split; try discriminate. apply not_elem_of_nil. }
  split.
  { apply (proj1 (proj1 (construction_fails_iff BaseClient_class ∅ (Some "k1") 5))).
    right. left. reflexivity. }
  split.
  { apply (proj1 (proj2 (construction_fails_iff (test_class "x-api-key") ∅
                           (Some "k1") 5))).
    intros [[[? | ?] _] | [? | Hs]]; try discriminate.
    apply Hs. simpl. apply elem_of_cons. by left. }
  apply (proj1 (proj2 (construction_fails_iff (test_class "x-api-key")
                         {["X_API_KEY" := "k2"]} None 5))).
  intros [[_ ?] | [? | Hs]]; try discriminate.
  apply Hs. simpl. apply elem_of_cons. by left.
Defined.

(** C9 (as stated) fails on an empty explicit key: it is not null, yet
    with the variable unset the constructor raises. *)
Lemma construction_fails_on_empty_key :
  BaseClient_init (test_class "x-api-key") ∅ (Some EmptyString) 5
  = Raise (ValueError
      "You must provide an API key or set api_env_name to initialize an LM Client.")
  ∧ ¬ spec_construction_fails (test_class "x-api-key") ∅ (Some EmptyString).
Proof.
  split; [reflexivity|].
  intros [[? _] | [? | Hs]]; try discriminate.
  apply Hs. simpl. apply elem_of_cons. by left.
Qed.

(** ** The request and its headers *)

Lemma in_values_true (v : string) (d : gmap string string) :
  in_values v d = true ↔ ∃ k, d !! k = Some v.
Proof.
  unfold in_values. rewrite bool_decide_eq_true, list_elem_of_fmap. split.
  - intros ([k v'] & -> & Hin). exists k. by apply elem_of_map_to_list.
  - intros [k Hk]. exists (k, v). split; [done|]. by apply elem_of_map_to_list.
Qed.

(** When the raw key is the value of some header after the merge, the
    headers are the three required ones overridden by the caller's. *)
Lemma request_headers_key_among_values (self : BaseClient)
    (extra_headers : option (gmap string string)) :
  in_values (__api_key self) (default ∅ extra_headers ∪ required_headers self)
  = true →
  request_headers self extra_headers
  = default ∅ extra_headers ∪ required_headers self.
Proof.
  intros Hin. unfold request_headers. fold (required_headers self).
  by rewrite Hin.
Qed.

Lemma length_append (s1 s2 : string) :
  String.length (s1 +:+ s2) = String.length s1 + String.length s2.
Proof. induction s1 as [|c s1 IH]; [done|]. simpl. by rewrite IH. Qed.

Lemma registry_x_api_key :
  API_HEADER_FORMAT_DICT !! "x-api-key"
  = Some {| key := "X-API-Key"; value := λ api_key, api_key |}.
Proof. reflexivity. Qed.

Lemma registry_basic :
  API_HEADER_FORMAT_DICT !! "basic authentication"
  = Some {| key := "Authorization"; value := λ api_key, "Basic " +:+ api_key |}.
Proof. reflexivity. Qed.

Lemma registry_bearer :
  API_HEADER_FORMAT_DICT !! "bearer authentication"
  = Some {| key := "Authorization"; value := λ api_key, "Bearer " +:+ api_key |}.
Proof. reflexivity. Qed.

(** X14: with the scheme [x-api-key] and no caller header of that name,
    the headers are the two JSON headers and [X-API-Key], overridden and
    extended by the caller's; the key travels in [X-API-Key] and no
    [Authorization] header is added by the client. *)
Lemma request_headers_x_api_key (self : BaseClient)
    (extra_headers : option (gmap string string)) :
  API_HEADER_FORMAT_DICT !! "x-api-key" = Some (_api_header self) →
  default ∅ extra_headers !! "X-API-Key" = None →
  request_headers self extra_headers
  = default ∅ extra_headers ∪ required_headers self
  ∧ request_headers self extra_headers !! "X-API-Key" = Some (__api_key self).
Proof.
  intros Hscheme Hextra. rewrite registry_x_api_key in Hscheme.
  injection Hscheme as Hh.
  assert ((default ∅ extra_headers ∪ required_headers self) !! "X-API-Key"
          = Some (__api_key self)) as Hkey.
  { rewrite lookup_union_r by done. unfold required_headers.
    rewrite <- Hh. simpl. apply lookup_insert_eq. }
  rewrite request_headers_key_among_values; [done|].
  apply in_values_true. eauto.
Qed.

(** X15: a header given by the caller under a name other than
    [Authorization] is sent with the caller's value, also when the client
    sets a header of that name itself. *)
Lemma request_headers_caller_precedence (self : BaseClient)
    (extra : gmap string string) (k v : string) :
  extra !! k = Some v → k ≠ "Authorization" →
  request_headers self (Some extra) !! k = Some v.
Proof.
  intros Hk Hne. unfold request_headers. simpl.
  destruct (negb _).
  - rewrite lookup_insert_ne by done. by apply lookup_union_Some_l.
  - by apply lookup_union_Some_l.
Qed.

(** With the scheme [basic authentication] and no caller headers, the
    [Basic] value is overwritten, whatever the key (other than the text of
    the two fixed headers). *)
Lemma request_headers_basic_overwritten (self : BaseClient) :
  API_HEADER_FORMAT_DICT !! "basic authentication" = Some (_api_header self) →
  __api_key self ≠ "application/json" →
  request_headers self None !! "Authorization"
  = Some ("Bearer " +:+ __api_key self).
Proof.
  intros Hscheme Hkey. rewrite registry_basic in Hscheme.
  injection Hscheme as Hh.
  unfold request_headers. rewrite <- Hh. simpl.
  rewrite (left_id_L ∅ (∪)).
  destruct (in_values _ _) eqn:Hin; simpl; [|apply lookup_insert_eq].
  apply in_values_true in Hin as [k Hk]. exfalso.
  apply lookup_insert_Some in Hk as [[_ Hk] | [_ Hk]].
  - apply (f_equal String.length) in Hk. rewrite length_append in Hk.
    simpl in Hk. lia.
  - apply lookup_insert_Some in Hk as [[_ Hk] | [_ Hk]]; [congruence|].
    apply lookup_singleton_Some in Hk as [_ Hk]. congruence.
Qed.

(** C5: a client of scheme [basic authentication] with key [k1] and no
    caller headers sends [Authorization: Bearer k1]; the [Basic k1] of the
    registry is not sent. *)
Theorem basic_authentication_sends_bearer :
  ∃ self,
    BaseClient_init (test_class "basic authentication") ∅ (Some "k1") 5 = Ok self
    ∧ key (_api_header self) = "Authorization"
    ∧ value (_api_header self) (__api_key self) = "Basic k1"
    ∧ request_headers self None
      = <["Authorization" := "Bearer k1"]>
          (<["content-type" := "application/json"]>
            {["accept" := "application/json"]})
    ∧ request_headers self None !! "Authorization" ≠ Some "Basic k1".
Proof.
  eexists. split; [reflexivity|]. split; [reflexivity|]. split; [reflexivity|].
  split; [vm_compute; reflexivity|]. vm_compute. discriminate.
Qed.

(** ** The exchange *)

Section transport_facts.
Variable server : endpoint.

(** One call is one request: the answer of the endpoint, normalised. *)
Lemma post_request_run (self : BaseClient) (api_path : string)
    (request : pyvalue) (extra_headers : option (gmap string string))
    (trace : list event) :
  _post_request server self api_path request extra_headers trace
  = (match server (attempts trace)
             (sent_request self api_path request extra_headers) with
     | Ok response =>
         match response_json response with
         | Some response_dict => Ok (response_status_code response, response_dict)
         | None =>
             Ok (if decide (response_status_code response = 200%Z)
                 then 200%Z else 500%Z, PyDict ∅)
         end
     | Raise e => Raise e
     end,
     trace ++ [Sent (sent_request self api_path request extra_headers)]).
Proof.
  unfold _post_request, requests_post, mbind, SE_bind, sent_request.
  destruct (server _ _) as [response|e]; [|done].
  destruct (response_json response); [done|]. unfold mret, SE_ret.
  unfold SUCCESS_STATUS_CODE.
  destruct (Z.eqb_spec (response_status_code response) 200) as [-> | Hne];
    simpl; [done|].
  by destruct (decide _).
Qed.

(** [max_retries] and the retry settings of the class have no effect on
    the call. *)
Lemma post_request_ignores_retry_settings (self : BaseClient)
    (n : Z) (factor : Q) (codes : list Z) (api_path : string)
    (request : pyvalue) (extra_headers : option (gmap string string))
    (trace : list event) :
  let self' :=
    {| class := {| base_url := base_url (class self);
                   api_env_name := api_env_name (class self);
                   api_header_format := api_header_format (class self);
                   RETRY_BACKOFF_FACTOR := factor;
                   RETRY_STATUS_CODES := codes |};
       max_retries := n;
       __api_key := __api_key self;
       _api_header := _api_header self |} in
  _post_request server self' api_path request extra_headers trace
  = _post_request server self api_path request extra_headers trace.
Proof. reflexivity. Qed.

(** C3: when the body of the response cannot be decoded, the call returns
    the empty mapping, with status 200 if the raw status is 200 and with
    status 500 otherwise. *)
Theorem undecodable_body_normalised (self : BaseClient) (api_path : string)
    (request : pyvalue) (extra_headers : option (gmap string string))
    (trace : list event) (status : Z) :
  (∀ r, server (attempts trace) r
        = Ok {| response_status_code := status; response_json := None |}) →
  (_post_request server self api_path request extra_headers trace).1
  = Ok (if decide (status = 200%Z) then 200%Z else 500%Z, PyDict ∅).
Proof. intros Hanswer. by rewrite post_request_run, Hanswer. Qed.

End transport_facts.

Lemma undecodable_body_normalised_witness :
  let self := test_client "x-api-key" {| key := "X-API-Key"; value := λ k, k |} in
  (_post_request (answers 503 None) self "v1/complete" (PyDict ∅) None []).1
  = Ok (500%Z, PyDict ∅)
  ∧ (_post_request (answers 200 None) self "v1/complete" (PyDict ∅) None []).1
    = Ok (200%Z, PyDict ∅).
Proof.
  split.
  - apply (undecodable_body_normalised (answers 503 None) _ _ _ _ [] 503).
    intros r. reflexivity.
  - apply (undecodable_body_normalised (answers 200 None) _ _ _ _ [] 200).
    intros r. reflexivity.
Defined.

(** C1: against an endpoint that answers every request with the same
    status, retryable or not, one call makes one attempt, waits for
    nothing, and returns that one answer; with [max_retries = 5] and status
    429 in particular. *)
Theorem post_request_makes_one_attempt (self : BaseClient)
    (api_path : string) (request body : pyvalue)
    (extra_headers : option (gmap string string)) (status : Z) :
  let run := _post_request (answers status (Some body)) self
               api_path request extra_headers [] in
  run.1 = Ok (status, body) ∧ attempts run.2 = 1 ∧ waits run.2 = [].
Proof. by rewrite post_request_run. Qed.

(** ** [complete] *)

Section complete_facts.
Import AnthropicClient.
Variable server : endpoint.
Variable to_request_dict : string → gmap string pyvalue → result pyvalue.

(** What [complete] does with the pair that [_post_request] returns. *)
Lemma complete_run (self : BaseClient) (prompt : string)
    (kwargs : gmap string pyvalue) (trace trace' : list event)
    (request response : pyvalue) (status : Z) :
  to_request_dict prompt kwargs = Ok request →
  _post_request server self "v1/complete" request None trace
  = (Ok (status, response), trace') →
  complete server to_request_dict self prompt kwargs trace
  = (if decide (status = 200%Z)
     then match getitem response "completion" with
          | Ok text => Ok {| text := text; raw_response := response;
                             status_code := status |}
          | Raise e => Raise e
          end
     else Ok {| text := PyNone; raw_response := response;
                status_code := status |},
     trace').
Proof.
  intros Hschema Hpost. unfold complete, mbind, SE_bind, lift.
  rewrite Hschema, Hpost. unfold SUCCESS_STATUS_CODE.
  destruct (Z.eqb_spec status 200) as [-> | Hne].
  - simpl. by destruct (getitem response "completion").
  - by destruct (decide _).
Qed.

(** C4 (as amended): for every pair (status, body) that the transport
    returns in which, when the status is 200, the body is a mapping with a
    [completion] field, [complete] returns a [ClientResponse] with
    [raw_response] and [status_code] taken from the pair, whose [text] is
    that field when the status is 200 and null for every other status; so
    a status other than 200 is returned, not raised. *)
Theorem complete_returns_transport_result (self : BaseClient)
    (prompt : string) (kwargs : gmap string pyvalue)
    (trace trace' : list event) (request body : pyvalue) (status : Z) :
  to_request_dict prompt kwargs = Ok request →
  _post_request server self "v1/complete" request None trace
  = (Ok (status, body), trace') →
  (status = 200%Z →
   ∃ d completion, body = PyDict d ∧ d !! "completion" = Some completion) →
  ∃ response,
    complete server to_request_dict self prompt kwargs trace
    = (Ok response, trace')
    ∧ raw_response response = body
    ∧ status_code response = status
    ∧ (status = 200%Z → getitem body "completion" = Ok (text response))
    ∧ (status ≠ 200%Z → text response = PyNone).
Proof.
  intros Hschema Hpost Hbody. rewrite (complete_run _ _ _ _ _ _ _ _ Hschema Hpost).
  destruct (decide (status = 200%Z)) as [Hs | Hs].
  - destruct (Hbody Hs) as (d & completion & -> & Hc). simpl. rewrite Hc.
    eexists. split; [reflexivity|]. simpl. by repeat split.
  - eexists. split; [reflexivity|]. simpl. by repeat split.
Qed.

(** C10: when the transport returns status 200 with a mapping that has no
    [completion] key, [complete] raises [KeyError] and returns no
    [ClientResponse]. *)
Theorem complete_raises_without_completion (self : BaseClient)
    (prompt : string) (kwargs : gmap string pyvalue)
    (trace trace' : list event) (request : pyvalue)
    (d : gmap string pyvalue) :
  to_request_dict prompt kwargs = Ok request →
  _post_request server self "v1/complete" request None trace
  = (Ok (200%Z, PyDict d), trace') →
  d !! "completion" = None →
  complete server to_request_dict self prompt kwargs trace
  = (Raise (KeyError "completion"), trace').
Proof.
  intros Hschema Hpost Hd. rewrite (complete_run _ _ _ _ _ _ _ _ Hschema Hpost).
  simpl. by rewrite Hd.
Qed.

End complete_facts.

(** A 404 with a decodable error body, and a 200 with a completion. *)
Lemma complete_returns_transport_result_witness :
  let self := test_client "x-api-key" {| key := "X-API-Key"; value := λ k, k |} in
  let error := PyDict {["error" := PyStr "not found"]} in
  let success := PyDict {["completion" := PyStr " Hi!"]} in
  (∃ response,
     AnthropicClient.complete (answers 404 (Some error)) plain_schema self
       "Hello" ∅ []
     = (Ok response, [Sent (sent_request self "v1/complete"
                              (PyDict {["prompt" := PyStr "Hello"]}) None)])
     ∧ raw_response response = error
     ∧ status_code response = 404%Z
     ∧ text response = PyNone)
  ∧ (∃ response,
       AnthropicClient.complete (answers 200 (Some success)) plain_schema self
         "Hello" ∅ []
       = (Ok response, [Sent (sent_request self "v1/complete"
                                (PyDict {["prompt" := PyStr "Hello"]}) None)])
       ∧ raw_response response = success
       ∧ status_code response = 200%Z
       ∧ getitem success "completion" = Ok (text response)).
Proof.
  intros self error success. split.
  - destruct (complete_returns_transport_result (answers 404 (Some error))
                plain_schema self "Hello" ∅ []
                [Sent (sent_request self "v1/complete"
                         (PyDict {["prompt" := PyStr "Hello"]}) None)]
                (PyDict {["prompt" := PyStr "Hello"]}) error 404)
      as (response & Hrun & Hraw & Hstatus & _ & Htext).
    + vm_compute; reflexivity.
    + vm_compute; reflexivity.
    + discriminate.
    + exists response. split; [exact Hrun|]. split; [exact Hraw|].
      split; [exact Hstatus|]. apply Htext. discriminate.
  - destruct (complete_returns_transport_result (answers 200 (Some success))
                plain_schema self "Hello" ∅ []
                [Sent (sent_request self "v1/complete"
                         (PyDict {["prompt" := PyStr "Hello"]}) None)]
                (PyDict {["prompt" := PyStr "Hello"]}) success 200)
      as (response & Hrun & Hraw & Hstatus & Htext & _).
    + vm_compute; reflexivity.
    + vm_compute; reflexivity.
    + intros _. eexists _, _. split; [reflexivity | vm_compute; reflexivity].
    + exists response. split; [exact Hrun|]. split; [exact Hraw|].
      split; [exact Hstatus|]. apply Htext. reflexivity.
Defined.

(** A 200 whose body cannot be decoded. *)
Lemma complete_raises_without_completion_witness :
  let self := test_client "x-api-key" {| key := "X-API-Key"; value := λ k, k |} in
  AnthropicClient.complete (answers 200 None) plain_schema self "Hello" ∅ []
  = (Raise (KeyError "completion"),
     [Sent (sent_request self "v1/complete"
              (PyDict {["prompt" := PyStr "Hello"]}) None)]).
Proof.
  apply (complete_raises_without_completion (answers 200 None) plain_schema
           _ "Hello" ∅ [] _ (PyDict {["prompt" := PyStr "Hello"]}) ∅);
    vm_compute; reflexivity.
Defined.

(** C4 (as stated) fails on the pair (200, empty mapping), which the
    transport returns for a 200 with an undecodable body: [complete]
    raises and returns no [ClientResponse]. *)
Lemma complete_raises_on_undecodable_200 :
  let self := test_client "x-api-key" {| key := "X-API-Key"; value := λ k, k |} in
  (_post_request (answers 200 None) self "v1/complete"
     (PyDict {["prompt" := PyStr "Hello"]}) None []).1
  = Ok (200%Z, PyDict ∅)
  ∧ (AnthropicClient.complete (answers 200 None) plain_schema self
       "Hello" ∅ []).1
    = Raise (KeyError "completion")
  ∧ ¬ ∃ response,
        (AnthropicClient.complete (answers 200 None) plain_schema self
           "Hello" ∅ []).1
        = Ok response.
Proof.
  split; [vm_compute; reflexivity|]. split; [vm_compute; reflexivity|].
  intros [response Hr]. vm_compute in Hr. discriminate.
Qed.

(** The scenario of the specification: key [k1], base URL
    [https://x.test], scheme [x-api-key], and [complete("Hello")] against
    an endpoint that answers 200 with a completion. *)
Example complete_end_to_end :
  ∃ self,
    BaseClient_init (test_class "x-api-key") ∅ (Some "k1") 5 = Ok self
    ∧ AnthropicClient.complete
        (answers 200 (Some (PyDict {["completion" := PyStr " Hi!"]})))
        plain_schema self "Hello" ∅ []
      = (Ok {| text := PyStr " Hi!";
               raw_response := PyDict {["completion" := PyStr " Hi!"]};
               status_code := 200 |},
         [Sent {| url := "https://x.test/v1/complete";
                  json := PyDict {["prompt" := PyStr "Hello"]};
                  headers := <["X-API-Key" := "k1"]>
                               (<["content-type" := "application/json"]>
                                 {["accept" := "application/json"]}) |}]).
Proof. eexists. split; [reflexivity|]. vm_compute. reflexivity. Qed.

(** * Further properties *)

(** ** The buffer as a window on the conversation *)

Section window_facts.
Import AnthropicChatHistory.

Lemma append_window (role content : pyvalue) (h : ChatHistory) :
  bounded_deque h →
  let h' := (ChatHistory.append role content h).2 in
  bounded_deque h' ∧ max_length h' = max_length h
  ∧ ChatHistory.messages h'
    = most_recent (max_length h) (ChatHistory.messages h ++ [built role content]).
Proof.
  intros (items & Hbuf & Hlen). rewrite append_accepts. simpl.
  unfold ChatHistory.messages, most_recent. simpl. rewrite Hbuf. simpl.
  unfold bounded_deque. simpl. rewrite length_app. simpl.
  destruct (Z.ltb_spec (max_length h) (Z.of_nat (length items + 1)))
    as [Hfull | Hroom].
  - assert (length items + 1 - Z.to_nat (max_length h) = 1) as -> by lia.
    split; [|split; [done|]].
    + eexists. split; [reflexivity|].
      destruct items as [|x items]; simpl in *; [lia|].
      rewrite length_app. simpl. lia.
    + simpl. by destruct (items ++ [built role content]).
  - assert (length items + 1 - Z.to_nat (max_length h) = 0) as -> by lia.
    split; [|done]. eexists. split; [reflexivity|].
    rewrite length_app. simpl. lia.
Qed.

Lemma most_recent_step {A} (n : Z) (l : list A) (x : A) (rest : list A) :
  (0 ≤ n)%Z →
  most_recent n (most_recent n (l ++ [x]) ++ rest)
  = most_recent n (l ++ x :: rest).
Proof.
  intros Hn. unfold most_recent.
  replace (l ++ x :: rest) with ((l ++ [x]) ++ rest) by by rewrite <- app_assoc.
  set (all := l ++ [x]).
  rewrite length_app, length_drop, length_app.
  destruct (decide (length all ≤ Z.to_nat n)) as [Hle | Hgt].
  - replace (length all - Z.to_nat n) with 0 by lia. simpl.
    by rewrite Nat.sub_0_r.
  - rewrite <- (drop_app_le all rest (length all - Z.to_nat n)) by lia.
    rewrite drop_drop. f_equal. lia.
Qed.

Lemma appends_window (turns : list (pyvalue * pyvalue)) (h : ChatHistory) :
  bounded_deque h →
  let h' := ChatHistory.run_ops (appends turns) h in
  bounded_deque h' ∧ max_length h' = max_length h
  ∧ ChatHistory.messages h'
    = most_recent (max_length h)
        (ChatHistory.messages h ++ ((λ t, built t.1 t.2) <$> turns)).
Proof.
  revert h. induction turns as [|[role content] turns IH]; intros h Hb.
  { simpl. split; [done|]. split; [done|]. rewrite app_nil_r.
    destruct Hb as (items & Hbuf & Hlen). unfold most_recent, ChatHistory.messages.
    rewrite Hbuf. simpl.
    by replace (length items - Z.to_nat (max_length h)) with 0 by lia. }
  destruct (append_window role content h Hb) as (Hb' & Hmax & Hmsgs).
  destruct (IH _ Hb') as (Hb'' & Hmax' & Hmsgs').
  simpl. split; [done|]. split; [congruence|].
  simpl in Hmsgs'. rewrite Hmsgs', Hmsgs, Hmax. simpl.
  apply most_recent_step. destruct Hb as (items & _ & Hlen). lia.
Qed.

Lemma appends_outcomes (turns : list (pyvalue * pyvalue)) (h : ChatHistory) :
  outcomes (appends turns) h = replicate (length turns) (Ok tt).
Proof.
  revert h. induction turns as [|[role content] turns IH]; intros h; [done|].
  simpl. rewrite append_accepts. simpl. by rewrite IH.
Qed.

(** X1: on a history that holds the deque of its constructor, any number
    of appends leaves the buffer holding the most recent [max_length]
    messages of the old ones followed by the new ones, in order; every one
    of the appends returns without raising, and [max_length] is
    unchanged. *)
Theorem appends_keep_most_recent (turns : list (pyvalue * pyvalue))
    (h : ChatHistory) :
  bounded_deque h →
  outcomes (appends turns) h = replicate (length turns) (Ok tt)
  ∧ ChatHistory.messages (ChatHistory.run_ops (appends turns) h)
    = most_recent (max_length h)
        (ChatHistory.messages h ++ ((λ t, built t.1 t.2) <$> turns))
  ∧ max_length (ChatHistory.run_ops (appends turns) h) = max_length h.
Proof.
  intros Hb. destruct (appends_window turns h Hb) as (_ & Hmax & Hmsgs).
  split; [apply appends_outcomes|]. by split.
Qed.

Lemma appends_keep_most_recent_witness :
  let h := {| max_length := 2;
              _messages := Deque 2 [message "human" "one"] |} in
  outcomes
    (appends [(PyStr "assistant", PyStr "two"); (PyStr "human", PyStr "three")])
    h = [Ok tt; Ok tt]
  ∧ ChatHistory.messages
    (ChatHistory.run_ops
       (appends [(PyStr "assistant", PyStr "two"); (PyStr "human", PyStr "three")])
       h)
  = [message "assistant" "two"; message "human" "three"]
  ∧ max_length
      (ChatHistory.run_ops
         (appends [(PyStr "assistant", PyStr "two"); (PyStr "human", PyStr "three")])
         h) = 2%Z.
Proof.
  apply (appends_keep_most_recent
           [(PyStr "assistant", PyStr "two"); (PyStr "human", PyStr "three")]
           {| max_length := 2; _messages := Deque 2 [message "human" "one"] |}).
  eexists. split; [reflexivity|]. simpl. lia.
Defined.

(** X2: [clear] never raises and returns a history that holds the deque of
    its constructor to the state in which the constructor leaves it. *)
Theorem clear_restores_initial_state (h : ChatHistory) :
  bounded_deque h →
  (ChatHistory.clear h).1 = Ok tt
  ∧ ChatHistory.init (max_length h) = Ok (ChatHistory.clear h).2.
Proof.
  intros (items & Hbuf & Hlen). split; [done|].
  unfold ChatHistory.init, ChatHistory.clear, mbind, SE_bind. simpl.
  rewrite Hbuf. simpl.
  destruct (Z.ltb_spec (max_length h) 0); [lia | done].
Qed.

Lemma clear_restores_initial_state_witness :
  let h := {| max_length := 2;
              _messages := Deque 2 [message "human" "one"] |} in
  (ChatHistory.clear h).1 = Ok tt
  ∧ ChatHistory.init 2 = Ok (ChatHistory.clear h).2.
Proof.
  apply (clear_restores_initial_state
           {| max_length := 2; _messages := Deque 2 [message "human" "one"] |}).
  eexists. split; [reflexivity|]. simpl. lia.
Defined.

Lemma last_most_recent {A} (n : Z) (l : list A) (x : A) :
  (0 < n)%Z → last (most_recent n (l ++ [x])) = Some x.
Proof.
  intros Hn. unfold most_recent. rewrite length_app. simpl.
  destruct (decide (length l + 1 - Z.to_nat n = 0)) as [-> | Hk].
  { simpl. apply last_snoc. }
  rewrite drop_app_le by lia. apply last_snoc.
Qed.

(** X3: on a history of positive capacity that holds the deque of its
    constructor, [add_human_message] and [add_assistant_message] never
    raise, whatever the content, and leave as the last message the mapping
    of the role [human], respectively [assistant], and that content. *)
Theorem add_message_is_last (content : pyvalue) (h : ChatHistory) :
  bounded_deque h → (0 < max_length h)%Z →
  (ChatHistory.add_human_message content h).1 = Ok tt
  ∧ last (ChatHistory.messages (ChatHistory.add_human_message content h).2)
    = Some (built (PyStr "human") content)
  ∧ (ChatHistory.add_assistant_message content h).1 = Ok tt
  ∧ last (ChatHistory.messages (ChatHistory.add_assistant_message content h).2)
    = Some (built (PyStr "assistant") content).
Proof.
  intros Hb Hn. unfold ChatHistory.add_human_message, ChatHistory.add_assistant_message.
  destruct (append_window (PyStr human_role) content h Hb) as (_ & _ & Hh).
  destruct (append_window (PyStr assistant_role) content h Hb) as (_ & _ & Ha).
  simpl in Hh, Ha. rewrite Hh, Ha.
  split; [done|]. split; [by apply last_most_recent|].
  split; [done|]. by apply last_most_recent.
Qed.

Lemma add_message_is_last_witness :
  let h := {| max_length := 1;
              _messages := Deque 1 [message "human" "one"] |} in
  (ChatHistory.add_human_message PyNone h).1 = Ok tt
  ∧ last (ChatHistory.messages (ChatHistory.add_human_message PyNone h).2)
    = Some (built (PyStr "human") PyNone)
  ∧ (ChatHistory.add_assistant_message PyNone h).1 = Ok tt
  ∧ last (ChatHistory.messages (ChatHistory.add_assistant_message PyNone h).2)
    = Some (built (PyStr "assistant") PyNone).
Proof.
  apply (add_message_is_last PyNone
           {| max_length := 1; _messages := Deque 1 [message "human" "one"] |}).
  - eexists. split; [reflexivity|]. simpl. lia.
  - simpl. lia.
Defined.

End window_facts.

(** ** What the buffer holds *)

Section content_facts.
Import AnthropicChatHistory.

Lemma check_all_accepts (ms : list pyvalue) :
  Forall has_role_and_content ms → ChatHistory.check_all ms = Ok ms.
Proof.
  induction 1 as [|m ms Hm _ IH]; [done|]. simpl.
  destruct (check_message_format_cases m) as [[_ Hok] | [Hbad _]]; [|done].
  unfold mbind, result_bind. by rewrite Hok, IH.
Qed.

Lemma check_all_accepted (ms ms' : list pyvalue) :
  ChatHistory.check_all ms = Ok ms' →
  ms' = ms ∧ Forall has_role_and_content ms.
Proof.
  revert ms'. induction ms as [|m ms IH]; intros ms'; simpl.
  { by intros [= <-]. }
  unfold mbind, result_bind.
  destruct (check_message_format_cases m) as [[Hm Hok] | [_ [msg Hr]]].
  - rewrite Hok. destruct (ChatHistory.check_all ms) as [checked|e]; [|done].
    destruct (IH checked eq_refl) as [-> Hall]. intros [= <-].
    split; [done|]. by constructor.
  - by rewrite Hr.
Qed.

Lemma built_has_role_and_content (role content : pyvalue) :
  has_role_and_content (built role content).
Proof.
  eexists. split; [reflexivity|]. split.
  - exists role. rewrite lookup_insert_ne by done. apply lookup_singleton_eq.
  - exists content. apply lookup_insert_eq.
Qed.

Lemma buffer_append_checked (b : buffer) (m : pyvalue) :
  Forall has_role_and_content (buffer_items b) → has_role_and_content m →
  Forall has_role_and_content (buffer_items (buffer_append b m)).
Proof.
  intros Hall Hm.
  assert (Forall has_role_and_content (buffer_items b ++ [m])) as Hnew.
  { apply Forall_app. split; [done|]. by constructor. }
  destruct b as [maxlen items | items]; simpl in *; [|done].
  destruct (_ <? _)%Z; simpl; [|done].
  destruct (items ++ [m]) as [|x rest]; simpl; [done|].
  by inversion Hnew.
Qed.

Lemma run_op_checked (o : ChatHistory.op) (h : ChatHistory) :
  Forall has_role_and_content (ChatHistory.messages h) →
  Forall has_role_and_content (ChatHistory.messages (ChatHistory.run_op o h).2).
Proof.
  intros Hall. unfold ChatHistory.messages in *.
  destruct o as [role content | content | content | | ms]; simpl.
  - apply buffer_append_checked; [done | apply built_has_role_and_content].
  - apply buffer_append_checked; [done | apply built_has_role_and_content].
  - apply buffer_append_checked; [done | apply built_has_role_and_content].
  - by destruct (_messages h).
  - unfold ChatHistory.set_messages, mbind, SE_bind, lift.
    destruct (ChatHistory.check_all ms) as [checked|e] eqn:Hcheck; simpl; [|done].
    by destruct (check_all_accepted _ _ Hcheck) as [-> Hms].
Qed.

(** X4: whatever public operations are performed on a constructed history,
    the setter and calls that raise included, every message in the buffer
    is a mapping that has a [role] key and a [content] key. *)
Theorem buffer_holds_checked_messages (n : Z) (h : ChatHistory)
    (ops : list ChatHistory.op) :
  ChatHistory.init n = Ok h →
  Forall has_role_and_content
    (ChatHistory.messages (ChatHistory.run_ops ops h)).
Proof.
  intros Hinit. destruct (init_bounded _ _ Hinit) as (_ & _ & Hnil).
  assert (Forall has_role_and_content (ChatHistory.messages h)) as Hall
    by (rewrite Hnil; constructor).
  clear Hinit Hnil. revert h Hall.
  induction ops as [|o ops IH]; intros h Hall; [done|].
  simpl. apply IH. by apply run_op_checked.
Qed.

Lemma buffer_holds_checked_messages_witness :
  Forall has_role_and_content
    (ChatHistory.messages
       (ChatHistory.run_ops
          [ChatHistory.Append PyNone (PyInt 3);
           ChatHistory.SetMessages [message "human" "hi"; PyStr "no mapping"];
           ChatHistory.AddAssistantMessage (PyStr "hello")]
          {| max_length := 1; _messages := Deque 1 [] |})).
Proof.
  apply (buffer_holds_checked_messages 1). reflexivity.
Defined.

Lemma list_buffer_appends (turns : list (pyvalue * pyvalue)) (h : ChatHistory)
    (items : list pyvalue) :
  _messages h = ListBuffer items →
  ChatHistory.messages (ChatHistory.run_ops (appends turns) h)
  = items ++ ((λ t, built t.1 t.2) <$> turns).
Proof.
  revert h items. induction turns as [|[role content] turns IH];
    intros h items Hbuf.
  { simpl. unfold ChatHistory.messages. rewrite Hbuf. simpl.
    by rewrite app_nil_r. }
  simpl. rewrite (IH _ (items ++ [built role content])).
  - by rewrite <- app_assoc.
  - rewrite append_accepts. simpl. by rewrite Hbuf.
Qed.

(** X5: assigning a list of mappings that all have both keys never raises
    and replaces the buffer by that list, whatever its length and whatever
    [max_length] is; the appends that follow are all kept after it. *)
Theorem valid_assignment_is_kept_whole (ms : list pyvalue)
    (turns : list (pyvalue * pyvalue)) (h : ChatHistory) :
  Forall has_role_and_content ms →
  (ChatHistory.set_messages ms h).1 = Ok tt
  ∧ ChatHistory.messages (ChatHistory.set_messages ms h).2 = ms
  ∧ ChatHistory.messages
      (ChatHistory.run_ops (ChatHistory.SetMessages ms :: appends turns) h)
    = ms ++ ((λ t, built t.1 t.2) <$> turns).
Proof.
  intros Hms.
  assert (ChatHistory.set_messages ms h
          = (Ok tt, {| max_length := max_length h; _messages := ListBuffer ms |}))
    as Hset.
  { unfold ChatHistory.set_messages, mbind, SE_bind, lift.
    by rewrite (check_all_accepts _ Hms). }
  rewrite Hset. split; [done|]. split; [done|].
  simpl. rewrite Hset. simpl. by apply list_buffer_appends.
Qed.

Lemma valid_assignment_is_kept_whole_witness :
  let h := {| max_length := 1; _messages := Deque 1 [message "human" "old"] |} in
  let ms := [message "human" "a"; message "assistant" "b"] in
  (ChatHistory.set_messages ms h).1 = Ok tt
  ∧ ChatHistory.messages (ChatHistory.set_messages ms h).2 = ms
  ∧ ChatHistory.messages
      (ChatHistory.run_ops
         (ChatHistory.SetMessages ms :: appends [(PyStr "human", PyStr "c")]) h)
    = ms ++ [message "human" "c"].
Proof.
  apply (valid_assignment_is_kept_whole
           [message "human" "a"; message "assistant" "b"]
           [(PyStr "human", PyStr "c")]
           {| max_length := 1; _messages := Deque 1 [message "human" "old"] |}).
  repeat constructor; (eexists; split; [reflexivity|]; split; eexists; reflexivity).
Defined.

Lemma length_bounded_without_setter_witness :
  (Z.of_nat
     (ChatHistory.len
        (ChatHistory.run_ops
           [ChatHistory.AddHumanMessage (PyStr "a");
            ChatHistory.AddAssistantMessage (PyStr "b");
            ChatHistory.Append (PyStr "human") (PyStr "c");
            ChatHistory.Clear;
            ChatHistory.AddHumanMessage (PyStr "d")]
           {| max_length := 2; _messages := Deque 2 [] |})) ≤ 2)%Z.
Proof.
  apply (length_bounded_without_setter 2
           {| max_length := 2; _messages := Deque 2 [] |}); reflexivity.
Defined.

End content_facts.

(** ** More on the prompt *)

Lemma lowercase_word_ascii (s : string) :
  lowercase_word s = true → ascii_text s = true.
Proof.
  unfold ascii_text. induction s as [|c s IH]; [done|]. simpl.
  intros [Hc Hs]%andb_prop. rewrite (IH Hs), andb_true_r.
  unfold is_lower in Hc. apply andb_prop in Hc as [_ Hc].
  apply Nat.leb_le in Hc. apply Nat.ltb_lt. lia.
Qed.

Section more_prompt_facts.
Import AnthropicChatHistory.
Variable py_str : pyvalue → string.
Variable unicode_title : string → string.





(** X8: for messages whose roles are words of lower-case letters, such as
    the two default roles, and whose contents are strings, the label of
    each turn is the role with its first letter in upper case and the rest
    unchanged. *)
Theorem to_prompt_capitalizes_lowercase_roles (self : ChatHistory)
    (turns : list (string * string)) (end_with_assistant_prompt : bool) :
  Forall2 holds_turn (ChatHistory.messages self) turns →
  Forall (λ t, lowercase_word t.1 = true) turns →
  to_prompt py_str unicode_title self end_with_assistant_prompt
  = Ok (spec_prompt spec_capitalize turns end_with_assistant_prompt).
Proof.
  intros Hturns Hlower. unfold to_prompt, spec_prompt.
  unfold ChatHistory.messages in Hturns.
  rewrite (format_messages_turns py_str unicode_title _ _ Hturns). simpl.
  assert ((λ t : string * string,
             str_title unicode_title t.1 +:+ ": " +:+ t.2) <$> turns
          = (λ t, spec_capitalize t.1 +:+ ": " +:+ t.2) <$> turns) as ->; [|done].
  apply Forall_fmap_ext. eapply Forall_impl; [exact Hlower|].
  intros t Ht. simpl. unfold str_title.
  by rewrite (lowercase_word_ascii _ Ht), title_lowercase_word.
Qed.

Lemma say_as_append (conv : list (speaker * string)) (h : ChatHistory) :
  ChatHistory.run_ops (say <$> conv) h
  = ChatHistory.run_ops
      (appends ((λ t, (PyStr (speaker_role t.1), PyStr t.2)) <$> conv)) h.
Proof.
  revert h. induction conv as [|[who content] conv IH]; intros h; [done|].
  simpl. rewrite <- IH. by destruct who.
Qed.

Lemma holds_turn_built (role content : string) :
  holds_turn (built (PyStr role) (PyStr content)) (role, content).
Proof.
  eexists. split; [reflexivity|]. split.
  - rewrite lookup_insert_ne by done. apply lookup_singleton_eq.
  - apply lookup_insert_eq.
Qed.

(** X9: a conversation held through [add_human_message] and
    [add_assistant_message] on a new history of capacity [n] serialises to
    its [n] most recent turns, in order, each as [Human: ...] or
    [Assistant: ...], separated by blank lines and followed by the cue
    [Assistant:]. *)
Theorem conversation_prompt (n : Z) (h : ChatHistory)
    (conv : list (speaker * string)) :
  ChatHistory.init n = Ok h →
  to_request_format py_str unicode_title (ChatHistory.run_ops (say <$> conv) h)
  = Ok (spec_prompt (λ label, label)
          (most_recent n ((λ t, (speaker_label t.1, t.2)) <$> conv)) true).
Proof.
  intros Hinit. destruct (init_bounded _ _ Hinit) as (Hb & Hmax & Hnil).
  rewrite say_as_append.
  destruct (appends_window
              ((λ t, (PyStr (speaker_role t.1), PyStr t.2)) <$> conv) h Hb)
    as (_ & _ & Hmsgs).
  simpl in Hmsgs. rewrite Hnil, Hmax in Hmsgs. simpl in Hmsgs.
  unfold to_request_format, to_prompt, spec_prompt.
  fold (ChatHistory.messages
          (ChatHistory.run_ops
             (appends ((λ t, (PyStr (speaker_role t.1), PyStr t.2)) <$> conv)) h)).
  rewrite Hmsgs.
  rewrite (format_messages_turns py_str unicode_title _
             (most_recent n ((λ t, (speaker_role t.1, t.2)) <$> conv))).
  - simpl. unfold most_recent. rewrite !length_fmap, <- !fmap_drop, <- !list_fmap_compose.
    do 3 f_equal. apply list_fmap_ext. intros i [who content] _. simpl.
    by destruct who.
  - unfold most_recent. rewrite !length_fmap. apply Forall2_drop.
    rewrite <- list_fmap_compose. apply Forall2_fmap, Forall_Forall2_diag.
    apply Forall_forall. intros [who content] _. simpl.
    apply holds_turn_built.
Qed.

End more_prompt_facts.


Lemma to_prompt_capitalizes_lowercase_roles_witness :
  AnthropicChatHistory.to_prompt sample_str sample_title
    {| max_length := 2;
       _messages := Deque 2 [message "human" "hi"; message "assistant" "hello"] |}
    false
  = Ok ("Human: hi" +:+ newline +:+ newline +:+ "Assistant: hello").
Proof.
  apply (to_prompt_capitalizes_lowercase_roles sample_str sample_title _
           [("human", "hi"); ("assistant", "hello")] false).
  - repeat constructor; apply holds_turn_built.
  - repeat constructor.
Defined.

Lemma conversation_prompt_witness :
  AnthropicChatHistory.to_request_format sample_str sample_title
    (ChatHistory.run_ops
       (say <$> [(Human, "one"); (Assistant, "two"); (Human, "three")])
       {| max_length := 2; _messages := Deque 2 [] |})
  = Ok ("Assistant: two" +:+ newline +:+ newline +:+ "Human: three"
        +:+ newline +:+ newline +:+ "Assistant:").
Proof.
  apply (conversation_prompt sample_str sample_title 2
           {| max_length := 2; _messages := Deque 2 [] |}
           [(Human, "one"); (Assistant, "two"); (Human, "three")]).
  reflexivity.
Defined.

(** ** The printed forms *)

Lemma append_assoc (a b c : string) : (a +:+ b) +:+ c = a +:+ b +:+ c.
Proof.
  induction a as [|x a IH]; [done|].
  change (String x ((a +:+ b) +:+ c) = String x (a +:+ b +:+ c)).
  by rewrite IH.
Qed.

Lemma append_empty_r (a : string) : a +:+ EmptyString = a.
Proof.
  induction a as [|x a IH]; [done|].
  change (String x (a +:+ EmptyString) = String x a). by rewrite IH.
Qed.

Lemma indent_after_newlines_app (a b : string) :
  indent_after_newlines (a +:+ b)
  = indent_after_newlines a +:+ indent_after_newlines b.
Proof.
  induction a as [|x a IH]; [done|].
  change (indent_after_newlines (String x (a +:+ b))
          = indent_after_newlines (String x a) +:+ indent_after_newlines b).
  simpl. rewrite IH. by destruct (Ascii.eqb x "010").
Qed.

Lemma indent_after_newlines_none (s : string) :
  no_newline s = true → indent_after_newlines s = s.
Proof.
  induction s as [|x s IH]; [done|]. simpl. intros [Hx Hs]%andb_prop.
  apply negb_true_iff in Hx. rewrite Hx. by rewrite IH.
Qed.

Lemma no_newline_app (a b : string) :
  no_newline a = true → no_newline b = true → no_newline (a +:+ b) = true.
Proof.
  induction a as [|x a IH]; [done|]. intros Ha Hb.
  change (no_newline (String x (a +:+ b)) = true).
  simpl in *. apply andb_prop in Ha as [Hx Ha]. by rewrite Hx, IH.
Qed.

(** Each line of a text gets its own four spaces. *)
Lemma indent_lines (lines : list string) :
  lines ≠ [] → Forall (λ s, no_newline s = true) lines →
  indent (String.concat newline lines) +:+ newline
  = concat_strings ((λ s, "    " +:+ s +:+ newline) <$> lines).
Proof.
  intros Hne Hall. induction Hall as [|s lines Hs Hall IH]; [done|].
  destruct lines as [|s' lines].
  { change (indent s +:+ newline = ("    " +:+ s +:+ newline) +:+ EmptyString).
    unfold indent. rewrite (indent_after_newlines_none _ Hs).
    by rewrite append_empty_r, append_assoc. }
  change (indent (s +:+ newline +:+ String.concat newline (s' :: lines))
            +:+ newline
          = ("    " +:+ s +:+ newline)
            +:+ concat_strings ((λ s, "    " +:+ s +:+ newline) <$> s' :: lines)).
  rewrite <- IH by done. unfold indent.
  rewrite !indent_after_newlines_app, (indent_after_newlines_none _ Hs).
  change (indent_after_newlines newline) with (newline +:+ "    ").
  by rewrite !append_assoc.
Qed.

Section repr_facts.
Variable py_str : pyvalue → string.

(** X10: the printed form of an empty history is the name of the class
    followed by [([])]; that of a history whose messages print without a
    newline is the name, the opening [([], one line per message, in order,
    made of four spaces and the message, and the closing [])]. *)
Theorem history_repr_lines (class_name : string) (self : ChatHistory) :
  Forall (λ m, no_newline (AnthropicChatHistory.format_value py_str m) = true)
    (ChatHistory.messages self) →
  ChatHistory_repr py_str class_name self
  = class_name +:+ "(["
    +:+ match ChatHistory.messages self with
        | [] => EmptyString
        | _ =>
            newline
            +:+ concat_strings
                  ((λ m, "    " +:+ AnthropicChatHistory.format_value py_str m
                         +:+ newline) <$> ChatHistory.messages self)
        end
    +:+ "])".
Proof.
  unfold ChatHistory_repr, ChatHistory.messages. intros Hall.
  destruct (buffer_items (_messages self)) as [|m ms]; [done|].
  change (0 <? length (m :: ms)) with true. cbv iota.
  rewrite indent_lines.
  - by rewrite <- list_fmap_compose.
  - done.
  - by apply Forall_fmap.
Qed.

(** X11: the printed form of a response whose three fields print without
    a newline has five lines: [ClientResponse({], the fields [text],
    [raw_response] and [status_code] in this order, each after four
    spaces, and [})]. *)
Theorem client_response_repr_lines (self : ClientResponse) :
  no_newline (AnthropicChatHistory.format_value py_str (text self)) = true →
  no_newline (AnthropicChatHistory.format_value py_str (raw_response self))
  = true →
  no_newline (py_str (PyInt (status_code self))) = true →
  ClientResponse_repr py_str self
  = "ClientResponse({" +:+ newline
    +:+ "    text: "
    +:+ AnthropicChatHistory.format_value py_str (text self) +:+ newline
    +:+ "    raw_response: "
    +:+ AnthropicChatHistory.format_value py_str (raw_response self) +:+ newline
    +:+ "    status_code: " +:+ py_str (PyInt (status_code self)) +:+ newline
    +:+ "})".
Proof.
  intros Htext Hraw Hstatus. unfold ClientResponse_repr.
  set (lines := [_; _; _]).
  rewrite <- (append_assoc (indent _) newline).
  rewrite indent_lines; [| done | repeat constructor; by apply no_newline_app].
  unfold lines, concat_strings. simpl.
  rewrite !append_assoc. reflexivity.
Qed.

End repr_facts.

Lemma history_repr_lines_witness :
  ChatHistory_repr sample_str "AnthropicChatHistory"
    {| max_length := 2; _messages := Deque 2 [] |}
  = "AnthropicChatHistory([])"
  ∧ ChatHistory_repr (λ _, "{...}") "AnthropicChatHistory"
      {| max_length := 2;
         _messages := Deque 2 [message "human" "hi"; message "assistant" "yo"] |}
    = "AnthropicChatHistory([" +:+ newline +:+ "    {...}" +:+ newline
      +:+ "    {...}" +:+ newline +:+ "])".
Proof.
  split.
  - apply (history_repr_lines sample_str "AnthropicChatHistory"
             {| max_length := 2; _messages := Deque 2 [] |}).
    constructor.
  - apply (history_repr_lines (λ _, "{...}") "AnthropicChatHistory"
             {| max_length := 2;
                _messages := Deque 2 [message "human" "hi";
                                      message "assistant" "yo"] |}).
    repeat constructor.
Defined.

Lemma client_response_repr_lines_witness :
  ClientResponse_repr (λ v, match v with PyInt _ => "200" | _ => "None" end)
    {| text := PyStr "Hi"; raw_response := PyNone; status_code := 200 |}
  = "ClientResponse({" +:+ newline +:+ "    text: Hi" +:+ newline
    +:+ "    raw_response: None" +:+ newline
    +:+ "    status_code: 200" +:+ newline +:+ "})".
Proof.
  apply (client_response_repr_lines
           (λ v, match v with PyInt _ => "200" | _ => "None" end)
           {| text := PyStr "Hi"; raw_response := PyNone; status_code := 200 |});
    reflexivity.
Defined.

(** ** More on construction and headers *)

(** X12: a constructed client holds the explicit key when one is given
    and is not empty, and otherwise the value of the environment variable,
    which may be the empty string. *)
Theorem key_resolution (cls : ClientClass) (environ : gmap string string)
    (api_key : option string) (n : Z) (self : BaseClient) :
  BaseClient_init cls environ api_key n = Ok self →
  (∀ k, api_key = Some k → k ≠ EmptyString → __api_key self = k)
  ∧ (api_key = None ∨ api_key = Some EmptyString →
     environ !! api_env_name cls = Some (__api_key self)).
Proof.
  intros Hinit. destruct (construction_result _ _ _ _ _ Hinit) as (_ & _ & Hkey & _).
  unfold or_else in Hkey. split.
  - intros k -> Hk. case_decide; [done | congruence].
  - intros [-> | ->]; [done|]. by case_decide.
Qed.

Lemma key_resolution_witness :
  (∀ self, BaseClient_init (test_class "x-api-key") {["X_API_KEY" := "from-env"]}
             (Some "k1") 5 = Ok self → __api_key self = "k1")
  ∧ (∀ self, BaseClient_init (test_class "x-api-key") {["X_API_KEY" := "from-env"]}
               (Some EmptyString) 5 = Ok self → __api_key self = "from-env")
  ∧ (∀ self, BaseClient_init (test_class "x-api-key") {["X_API_KEY" := EmptyString]}
               None 5 = Ok self → __api_key self = EmptyString).
Proof.
  split; [|split]; intros self Hinit.
  - by apply (proj1 (key_resolution _ _ _ _ _ Hinit) "k1").
  - pose proof (proj2 (key_resolution _ _ _ _ _ Hinit) (or_intror eq_refl)) as Hk.
    simpl in Hk. rewrite lookup_singleton_eq in Hk. by injection Hk.
  - pose proof (proj2 (key_resolution _ _ _ _ _ Hinit) (or_introl eq_refl)) as Hk.
    simpl in Hk. rewrite lookup_singleton_eq in Hk. by injection Hk.
Defined.

(** X13: [AnthropicClient(api_key)] raises exactly when the key is null or
    empty and [ANTHROPIC_API_KEY] is unset.  In every other case it
    returns a client, which holds the resolved key, has five retries
    configured, posts to [https://api.anthropic.com], and sends, when the
    caller gives no headers, the two JSON headers and the key in
    [X-API-Key], with no [Authorization] header. *)
Theorem anthropic_client_construction (environ : gmap string string)
    (api_key : option string) :
  ((∃ msg, AnthropicClient.init environ api_key = Raise (ValueError msg))
   ↔ (api_key = None ∨ api_key = Some EmptyString)
     ∧ environ !! "ANTHROPIC_API_KEY" = None)
  ∧ (¬ ((api_key = None ∨ api_key = Some EmptyString)
        ∧ environ !! "ANTHROPIC_API_KEY" = None) →
     ∃ self,
       AnthropicClient.init environ api_key = Ok self
       ∧ or_else api_key (environ !! "ANTHROPIC_API_KEY")
         = Some (__api_key self)
       ∧ max_retries self = 5%Z
       ∧ base_url (class self) = "https://api.anthropic.com"
       ∧ request_headers self None
         = <["X-API-Key" := __api_key self]>
             (<["content-type" := "application/json"]>
               {["accept" := "application/json"]})
       ∧ request_headers self None !! "Authorization" = None).
Proof.
  unfold AnthropicClient.init. split.
  - rewrite <- or_else_None. unfold BaseClient_init. simpl.
    destruct (or_else api_key (environ !! "ANTHROPIC_API_KEY")) as [k|].
    + split; [by intros [msg [=]] | done].
    + split; [done | eauto].
  - intros Hkey. rewrite <- or_else_None in Hkey.
    destruct (or_else api_key (environ !! "ANTHROPIC_API_KEY")) as [k|] eqn:Hk;
      [|done].
    set (self := {| class := AnthropicClient.class; max_retries := 5;
                    __api_key := k;
                    _api_header := {| key := "X-API-Key";
                                      value := λ api_key, api_key |} |}).
    assert (BaseClient_init AnthropicClient.class environ api_key 5 = Ok self)
      as Hinit.
    { unfold BaseClient_init. simpl. by rewrite Hk. }
    exists self. split; [done|]. split; [done|]. split; [done|].
    split; [done|].
    assert (request_headers self None
            = <["X-API-Key" := k]>
                (<["content-type" := "application/json"]>
                  {["accept" := "application/json"]})) as Hheaders.
    { rewrite request_headers_key_among_values.
      - simpl. by rewrite (left_id_L ∅ (∪)).
      - apply in_values_true. exists "X-API-Key". simpl.
        rewrite (left_id_L ∅ (∪)). apply lookup_insert_eq. }
    split; [done|]. rewrite Hheaders.
    rewrite !lookup_insert_ne by done. by apply lookup_singleton_ne.
Qed.

Lemma anthropic_client_construction_witness :
  (∃ msg, AnthropicClient.init ∅ None = Raise (ValueError msg))
  ∧ (∃ self,
       AnthropicClient.init {["ANTHROPIC_API_KEY" := "sk"]} None = Ok self
       ∧ or_else None
           (({["ANTHROPIC_API_KEY" := "sk"]} : gmap string string)
              !! "ANTHROPIC_API_KEY")
         = Some (__api_key self)
       ∧ max_retries self = 5%Z
       ∧ base_url (class self) = "https://api.anthropic.com"
       ∧ request_headers self None
         = <["X-API-Key" := __api_key self]>
             (<["content-type" := "application/json"]>
               {["accept" := "application/json"]})
       ∧ request_headers self None !! "Authorization" = None).
Proof.
  split.
  - apply (proj2 (proj1 (anthropic_client_construction ∅ None))).
    split; [by left | reflexivity].
  - apply (proj2 (anthropic_client_construction
                    {["ANTHROPIC_API_KEY" := "sk"]} None)).
    intros [_ Hunset]. vm_compute in Hunset. discriminate.
Defined.

Lemma request_headers_x_api_key_witness :
  let self := test_client "x-api-key" {| key := "X-API-Key"; value := λ k, k |} in
  request_headers self (Some {["anthropic-version" := "2023-06-01"]})
  = {["anthropic-version" := "2023-06-01"]} ∪ required_headers self
  ∧ request_headers self (Some {["anthropic-version" := "2023-06-01"]})
      !! "X-API-Key" = Some "k1".
Proof.
  assert (default ∅ (Some ({["anthropic-version" := "2023-06-01"]}
                            : gmap string string)) !! "X-API-Key" = None)
    as Hextra by (vm_compute; reflexivity).
  exact (request_headers_x_api_key
           (test_client "x-api-key" {| key := "X-API-Key"; value := λ k, k |})
           (Some {["anthropic-version" := "2023-06-01"]})
           eq_refl Hextra).
Defined.

Lemma request_headers_caller_precedence_witness :
  request_headers
    (test_client "x-api-key" {| key := "X-API-Key"; value := λ k, k |})
    (Some {["accept" := "text/plain"]}) !! "accept" = Some "text/plain".
Proof.
  apply (request_headers_caller_precedence
           (test_client "x-api-key" {| key := "X-API-Key"; value := λ k, k |})
           {["accept" := "text/plain"]} "accept" "text/plain").
  - vm_compute. reflexivity.
  - discriminate.
Defined.

(** X16: with the scheme [bearer authentication] and no [Authorization]
    header from the caller, the request carries [Authorization: Bearer]
    followed by the key. *)
Theorem bearer_scheme_header (self : BaseClient)
    (extra_headers : option (gmap string string)) :
  API_HEADER_FORMAT_DICT !! "bearer authentication" = Some (_api_header self) →
  default ∅ extra_headers !! "Authorization" = None →
  request_headers self extra_headers !! "Authorization"
  = Some ("Bearer " +:+ __api_key self).
Proof.
  intros Hscheme Hextra. rewrite registry_bearer in Hscheme.
  injection Hscheme as Hh. unfold request_headers. rewrite <- Hh. simpl.
  destruct (negb _); [apply lookup_insert_eq|].
  rewrite lookup_union_r by done. apply lookup_insert_eq.
Qed.

Lemma bearer_scheme_header_witness :
  request_headers
    (test_client "bearer authentication"
       {| key := "Authorization"; value := λ k, "Bearer " +:+ k |})
    (Some {["accept" := "text/plain"]}) !! "Authorization" = Some "Bearer k1".
Proof.
  apply (bearer_scheme_header
           (test_client "bearer authentication"
              {| key := "Authorization"; value := λ k, "Bearer " +:+ k |})
           (Some {["accept" := "text/plain"]})).
  - reflexivity.
  - vm_compute. reflexivity.
Defined.

Lemma registry_header_keys (scheme : string) (h : APIHeader) :
  API_HEADER_FORMAT_DICT !! scheme = Some h →
  key h = "X-API-Key" ∨ key h = "Authorization".
Proof.
  unfold API_HEADER_FORMAT_DICT. intros Hh.
  apply lookup_insert_Some in Hh as [[_ <-] | [_ Hh]]; [by right|].
  apply lookup_insert_Some in Hh as [[_ <-] | [_ Hh]]; [by right|].
  apply lookup_singleton_Some in Hh as [_ <-]. by left.
Qed.

(** X17: for a client of any registered scheme, a request whose caller
    gives no [accept] and no [content-type] header carries both with the
    value [application/json]. *)
Theorem json_headers_sent (self : BaseClient) (scheme : string)
    (extra_headers : option (gmap string string)) :
  API_HEADER_FORMAT_DICT !! scheme = Some (_api_header self) →
  default ∅ extra_headers !! "accept" = None →
  default ∅ extra_headers !! "content-type" = None →
  request_headers self extra_headers !! "accept" = Some "application/json"
  ∧ request_headers self extra_headers !! "content-type"
    = Some "application/json".
Proof.
  intros Hscheme Haccept Htype. unfold request_headers.
  assert (key (_api_header self) ≠ "accept"
          ∧ key (_api_header self) ≠ "content-type") as [Hk1 Hk2].
  { destruct (registry_header_keys _ _ Hscheme) as [-> | ->]; by split. }
  destruct (negb _); rewrite ?(lookup_insert_ne _ "Authorization") by done;
    rewrite !lookup_union_r by done;
    rewrite !(lookup_insert_ne _ (key (_api_header self))) by done;
    (split; [by rewrite lookup_insert_ne | apply lookup_insert_eq]).
Qed.

Lemma json_headers_sent_witness :
  let self := test_client "basic authentication"
                {| key := "Authorization"; value := λ k, "Basic " +:+ k |} in
  request_headers self (Some {["x-trace" := "1"]}) !! "accept"
  = Some "application/json"
  ∧ request_headers self (Some {["x-trace" := "1"]}) !! "content-type"
    = Some "application/json".
Proof.
  apply (json_headers_sent
           (test_client "basic authentication"
              {| key := "Authorization"; value := λ k, "Basic " +:+ k |})
           "basic authentication" (Some {["x-trace" := "1"]})).
  - reflexivity.
  - vm_compute. reflexivity.
  - vm_compute. reflexivity.
Defined.

(** ** More on the exchange and on [complete] *)

Section more_transport_facts.
Variable server : endpoint.
Variable to_request_dict : string → gmap string pyvalue → result pyvalue.

(** X19: a response whose body decodes is returned as it is, status and
    body, whatever the status. *)
Theorem decodable_response_returned (self : BaseClient) (api_path : string)
    (request body : pyvalue) (extra_headers : option (gmap string string))
    (trace : list event) (status : Z) :
  (∀ r, server (attempts trace) r
        = Ok {| response_status_code := status; response_json := Some body |}) →
  (_post_request server self api_path request extra_headers trace).1
  = Ok (status, body).
Proof. intros Hanswer. by rewrite post_request_run, Hanswer. Qed.

(** X20: an exception of the HTTP library is not turned into a status: it
    leaves [_post_request], and [complete], as it was raised. *)
Theorem connection_error_propagates (self : BaseClient) (prompt : string)
    (kwargs : gmap string pyvalue) (request : pyvalue) (trace : list event)
    (e : exn) :
  (∀ r, server (attempts trace) r = Raise e) →
  to_request_dict prompt kwargs = Ok request →
  (_post_request server self "v1/complete" request None trace).1 = Raise e
  ∧ (AnthropicClient.complete server to_request_dict self prompt kwargs trace).1
    = Raise e.
Proof.
  intros Hfail Hschema.
  assert (_post_request server self "v1/complete" request None trace
          = (Raise e, trace ++ [Sent (sent_request self "v1/complete" request None)]))
    as Hpost by by rewrite post_request_run, Hfail.
  split; [by rewrite Hpost|].
  unfold AnthropicClient.complete, mbind, SE_bind, lift.
  by rewrite Hschema, Hpost.
Qed.

(** X21: when the request schema rejects the prompt or the options,
    [complete] raises the exception of the schema and sends nothing. *)
Theorem schema_error_sends_nothing (self : BaseClient) (prompt : string)
    (kwargs : gmap string pyvalue) (trace : list event) (e : exn) :
  to_request_dict prompt kwargs = Raise e →
  AnthropicClient.complete server to_request_dict self prompt kwargs trace
  = (Raise e, trace).
Proof.
  intros Hschema. unfold AnthropicClient.complete, mbind, SE_bind, lift.
  by rewrite Hschema.
Qed.

(** X22: when the transport returns status 200 with a body that is not a
    mapping, [complete] raises [TypeError]. *)
Theorem complete_raises_on_non_mapping (self : BaseClient) (prompt : string)
    (kwargs : gmap string pyvalue) (trace trace' : list event)
    (request body : pyvalue) :
  to_request_dict prompt kwargs = Ok request →
  _post_request server self "v1/complete" request None trace
  = (Ok (200%Z, body), trace') →
  (∀ d, body ≠ PyDict d) →
  AnthropicClient.complete server to_request_dict self prompt kwargs trace
  = (Raise TypeError, trace').
Proof.
  intros Hschema Hpost Hbody.
  rewrite (complete_run _ _ _ _ _ _ _ _ _ _ Hschema Hpost). simpl.
  destruct body; try done. by destruct (Hbody d).
Qed.

End more_transport_facts.

Lemma decodable_response_returned_witness :
  (_post_request (answers 503 (Some (PyDict {["error" := PyStr "overloaded"]})))
     (test_client "x-api-key" {| key := "X-API-Key"; value := λ k, k |})
     "v1/complete" (PyDict ∅) None []).1
  = Ok (503%Z, PyDict {["error" := PyStr "overloaded"]}).
Proof.
  apply (decodable_response_returned
           (answers 503 (Some (PyDict {["error" := PyStr "overloaded"]})))
           _ _ _ _ _ [] 503).
  intros r. reflexivity.
Defined.

Lemma connection_error_propagates_witness :
  let self := test_client "x-api-key" {| key := "X-API-Key"; value := λ k, k |} in
  let down : endpoint := λ _ _, Raise (External "ConnectionError") in
  (_post_request down self "v1/complete"
     (PyDict {["prompt" := PyStr "Hello"]}) None []).1
  = Raise (External "ConnectionError")
  ∧ (AnthropicClient.complete down plain_schema self "Hello" ∅ []).1
    = Raise (External "ConnectionError").
Proof.
  apply (connection_error_propagates (λ _ _, Raise (External "ConnectionError"))
           plain_schema
           (test_client "x-api-key" {| key := "X-API-Key"; value := λ k, k |})
           "Hello" ∅ (PyDict {["prompt" := PyStr "Hello"]}) []
           (External "ConnectionError")).
  - intros r. reflexivity.
  - vm_compute. reflexivity.
Defined.

Lemma schema_error_sends_nothing_witness :
  AnthropicClient.complete (answers 200 None)
    (λ _ _, Raise (External "ValidationError"))
    (test_client "x-api-key" {| key := "X-API-Key"; value := λ k, k |})
    "Hello" {["temperature" := PyStr "hot"]} []
  = (Raise (External "ValidationError"), []).
Proof.
  apply (schema_error_sends_nothing (answers 200 None)
           (λ _ _, Raise (External "ValidationError"))).
  reflexivity.
Defined.

Lemma complete_raises_on_non_mapping_witness :
  let self := test_client "x-api-key" {| key := "X-API-Key"; value := λ k, k |} in
  AnthropicClient.complete (answers 200 (Some (PyList []))) plain_schema self
    "Hello" ∅ []
  = (Raise TypeError,
     [Sent (sent_request self "v1/complete"
              (PyDict {["prompt" := PyStr "Hello"]}) None)]).
Proof.
  apply (complete_raises_on_non_mapping (answers 200 (Some (PyList []))) plain_schema
           _ "Hello" ∅ [] _ (PyDict {["prompt" := PyStr "Hello"]}) (PyList [])).
  - vm_compute. reflexivity.
  - vm_compute. reflexivity.
  - discriminate.
Defined.
